(** * Storage abstraction layer: registry dispatch, error state and the
      dbox mailbox lifecycle

    A shallow embedding of [src/lib-storage/mail-storage.c] and
    [src/lib-storage/index/dbox-common/dbox-storage.c].

    C strings are [string]; a pointer that may be NULL is an [option];
    [int] return codes are [Z]; [time_t] values are [Z] and the
    arithmetic the code does on them wraps to the width of [time_t],
    which is a parameter.  Calls into
    collaborators whose code is elsewhere (libc, the index engine, the
    mailbox list, backend vtables) are parameters of the sections
    below; every call the embedded code makes to one of them is
    recorded in a trace so that "is invoked" has a meaning. *)

From Stdlib Require Import ZArith List String Ascii Bool Lia DecimalString.
Import ListNotations.

Open Scope string_scope.
Open Scope Z_scope.

(** ** The pieces of libc the two files rely on *)

Module Libc.

Definition ENOENT : Z := 2.
Definition EACCES : Z := 13.

(** [i_isalnum] in the "C" locale. *)
Definition i_isalnum (c : ascii) : bool :=
  let n := nat_of_ascii c in
  ((48 <=? n) && (n <=? 57) || (65 <=? n) && (n <=? 90)
   || (97 <=? n) && (n <=? 122))%nat.

Definition i_tolower (c : ascii) : Z :=
  let n := Z.of_nat (nat_of_ascii c) in
  if (65 <=? n) && (n <=? 90) then n + 32 else n.

(** [strcasecmp]: difference of the first pair of bytes that differ
    after lower-casing, 0 when there is none. *)
Fixpoint strcasecmp (s1 s2 : string) : Z :=
  match s1, s2 with
  | EmptyString, EmptyString => 0
  | EmptyString, String b _ => 0 - i_tolower b
  | String a _, EmptyString => i_tolower a
  | String a r1, String b r2 =>
      if i_tolower a =? i_tolower b then strcasecmp r1 r2
      else i_tolower a - i_tolower b
  end.

(** Variadic arguments of the printf family. *)
Inductive printf_arg : Type :=
| ArgStr (s : string)
| ArgInt (z : Z).

Definition va_list : Type := list printf_arg.

Definition decimal (z : Z) : string :=
  DecimalString.NilZero.string_of_int (Z.to_int z).

(** The [%s] / [%d] conversion of one argument. *)
Definition conv_arg (c : ascii) (a : printf_arg) : string :=
  match a with
  | ArgStr s => s
  | ArgInt z => decimal z
  end.

(** The printf of lib: [%s] and [%d] consume an argument, [%m] is
    the text of the current errno, [%%] is a percent sign.  Other
    conversions do not occur in the embedded call sites; they are
    copied through. *)
Fixpoint vprintf (errtext : string) (fmt : string) (va : va_list)
  : string :=
  match fmt with
  | EmptyString => EmptyString
  | String "%" (String c rest) =>
      if Ascii.eqb c "m" then errtext ++ vprintf errtext rest va
      else if Ascii.eqb c "%" then String "%" (vprintf errtext rest va)
      else if Ascii.eqb c "s" || Ascii.eqb c "d" then
        match va with
        | a :: va' => conv_arg c a ++ vprintf errtext rest va'
        | [] => vprintf errtext rest va
        end
      else String "%" (String c (vprintf errtext rest va))
  | String c rest => String c (vprintf errtext rest va)
  end.

(** [struct tm], the fields the timestamp uses. *)
Record tm : Type := mk_tm {
  tm_year : Z; tm_mon : Z; tm_mday : Z;
  tm_hour : Z; tm_min : Z; tm_sec : Z
}.

(** Expansion of a strftime format; [conv c t] is the text of the
    conversion [%c]. *)
Fixpoint strftime_expand (conv : ascii -> tm -> string)
         (fmt : string) (t : tm) : string :=
  match fmt with
  | EmptyString => EmptyString
  | String "%" (String c rest) =>
      conv c t ++ strftime_expand conv rest t
  | String c rest => String c (strftime_expand conv rest t)
  end.

(** [strftime(buf, max, fmt, tm)]: the number of bytes written
    (without the terminator) and the buffer; 0 when the text with
    its terminator does not fit in [max] bytes. *)
Definition strftime (conv : ascii -> tm -> string)
           (max : nat) (fmt : string) (t : tm) : Z * string :=
  let r := strftime_expand conv fmt t in
  if (String.length r + 1 <=? max)%nat
  then (Z.of_nat (String.length r), r)
  else (0, EmptyString).

Definition two_digits (z : Z) : string :=
  if z <? 10 then "0" ++ decimal z else decimal z.

(** The conversions of the "C" locale that the timestamp uses. *)
Definition c_conv (c : ascii) (t : tm) : string :=
  if Ascii.eqb c "Y" then decimal (tm_year t + 1900)
  else if Ascii.eqb c "m" then two_digits (tm_mon t + 1)
  else if Ascii.eqb c "d" then two_digits (tm_mday t)
  else if Ascii.eqb c "H" then two_digits (tm_hour t)
  else if Ascii.eqb c "M" then two_digits (tm_min t)
  else if Ascii.eqb c "S" then two_digits (tm_sec t)
  else if Ascii.eqb c "%" then "%"
  else EmptyString.

End Libc.

Import Libc.

(** ** Process state shared by the two files *)

(** [struct mail_storage], the fields the embedded code reads or
    writes: the error slot and its syntax flag. *)
Record mail_storage : Type := mk_storage {
  error : option string;
  syntax_error : bool
}.

(** What a call can see and change: [errno], the clock of the I/O
    loop, the operator log written by [i_error], the storage a mailbox
    points to, and the state of everything else (file system, index
    engine), of a type [X] the embedded code never looks into. *)
Record world (X : Type) : Type := mk_world {
  errno : Z;
  ioloop_time : Z;
  log : list string;
  storage : mail_storage;
  ext : X
}.

Arguments mk_world {X}.
Arguments errno {X}.
Arguments ioloop_time {X}.
Arguments log {X}.
Arguments storage {X}.
Arguments ext {X}.

Definition with_storage {X} (w : world X) (s : mail_storage) : world X :=
  mk_world (errno w) (ioloop_time w) (log w) s (ext w).

Definition with_log {X} (w : world X) (l : list string) : world X :=
  mk_world (errno w) (ioloop_time w) l (storage w) (ext w).

(** libc services whose result depends on the host: time zone, locale
    and the message catalogue. *)
Class LibcOps : Type := {
  localtime : Z -> tm;
  strftime_conv : ascii -> tm -> string;
  strerror : Z -> string
}.

(** [time_t] is a signed integer of [time_t_bits] bits on the host;
    the sums and differences the code forms in it wrap around. *)
Class TimeT : Type := { time_t_bits : positive }.

Definition time_t_min {T : TimeT} : Z := - 2 ^ (Z.pos time_t_bits - 1).

Definition time_t_max {T : TimeT} : Z := 2 ^ (Z.pos time_t_bits - 1) - 1.

(** A value that a [time_t] can hold. *)
Definition in_time_t {T : TimeT} (z : Z) : Prop :=
  time_t_min <= z <= time_t_max.

(** The [time_t] an arithmetic result is stored as. *)
Definition to_time_t {T : TimeT} (z : Z) : Z :=
  (z - time_t_min) mod 2 ^ Z.pos time_t_bits + time_t_min.

(** ** mail-storage.c *)

Module MailStorage.

Definition CRITICAL_MSG : string :=
  "Internal error occured. Refer to server log for more information.".

Definition CRITICAL_MSG_STAMP : string :=
  CRITICAL_MSG ++ " [%Y-%m-%d %H:%M:%S]".

Definition mail_storage_flags : Type := Z.
Definition mail_storage_lock_method : Type := Z.

(** A registered storage class: its name and the two entries of its
    vtable that the registry calls.  (In C a class is itself a
    [struct mail_storage]; the instance [create] returns is kept as
    the record above.) *)
Record mail_storage_class : Type := mk_class {
  name : string;
  v_create : option string -> string -> mail_storage_flags ->
             mail_storage_lock_method -> option mail_storage;
  v_autodetect : option string -> mail_storage_flags -> bool
}.

(** Calls made through a class's vtable, in the order made. *)
Inductive vcall : Type :=
| VCreate (cls : string) (data : option string)
| VAutodetect (cls : string) (data : option string).

Fixpoint mail_storage_find (classes : list mail_storage_class)
         (nm : string) : option mail_storage_class :=
  match classes with
  | [] => None
  | c :: rest =>
      if strcasecmp (name c) nm =? 0 then Some c
      else mail_storage_find rest nm
  end.

Section Registry.
Variable storages : list mail_storage_class.
Variables (user : string) (flags : mail_storage_flags)
          (lock_method : mail_storage_lock_method).

Definition mail_storage_create (nm : string) (data : option string)
  : option mail_storage * list vcall :=
  match mail_storage_find storages nm with
  | Some c => (v_create c data user flags lock_method,
               [VCreate (name c) data])
  | None => (None, [])
  end.

Fixpoint create_default_loop (classes : list mail_storage_class)
  : option mail_storage * list vcall :=
  match classes with
  | [] => (None, [])
  | c :: rest =>
      match v_create c None user flags lock_method with
      | Some st => (Some st, [VCreate (name c) None])
      | None =>
          let (r, t) := create_default_loop rest in
          (r, VCreate (name c) None :: t)
      end
  end.

Definition mail_storage_create_default
  : option mail_storage * list vcall :=
  create_default_loop storages.

Fixpoint autodetect_loop (classes : list mail_storage_class)
         (data : option string)
  : option mail_storage_class * list vcall :=
  match classes with
  | [] => (None, [])
  | c :: rest =>
      if v_autodetect c data flags
      then (Some c, [VAutodetect (name c) data])
      else
        let (r, t) := autodetect_loop rest data in
        (r, VAutodetect (name c) data :: t)
  end.

Definition mail_storage_autodetect (data : option string)
  : option mail_storage_class * list vcall :=
  autodetect_loop storages data.

(** A [const char *] into a string is the string from there on:
    [*p] is its first byte (the terminator at the end), [p+1]
    drops it. *)
Definition deref (p : string) : ascii :=
  match p with
  | String c _ => c
  | EmptyString => zero
  end.

Definition next (p : string) : string :=
  match p with
  | String _ rest => rest
  | EmptyString => EmptyString
  end.

(** [while (i_isalnum( *p)) p++;] *)
Fixpoint skip_alnum (p : string) : string :=
  match p with
  | String c rest => if i_isalnum c then skip_alnum rest else p
  | EmptyString => p
  end.

(** [t_strdup_until(data, p)] for a [p] that points into [data]. *)
Definition t_strdup_until (data p : string) : string :=
  substring 0 (String.length data - String.length p) data.

Definition mail_storage_create_with_data (data : option string)
  : option mail_storage * list vcall :=
  match data with
  | None | Some EmptyString => mail_storage_create_default
  | Some d =>
      (* check if we're in the form of mailformat:data
         (eg. maildir:Maildir) *)
      let p := skip_alnum d in
      if Ascii.eqb (deref p) ":" then
        let nm := t_strdup_until d p in
        mail_storage_create nm (Some (next p))
      else
        match mail_storage_autodetect data with
        | (Some c, t) =>
            (v_create c data user flags lock_method,
             (t ++ [VCreate (name c) data])%list)
        | (None, t) => (None, t)
        end
  end.
End Registry.

Section Errors.
Context {L : LibcOps} {X : Type}.

(** [i_strdup_vprintf] / [t_strdup_vprintf]: [%m] expands to the
    text of the errno current at the call. *)
Definition strdup_vprintf (fmt : string) (va : va_list)
           (w : world X) : string :=
  vprintf (strerror (errno w)) fmt va.

(** [i_error]: one line appended to the operator log. *)
Definition i_error (fmt : string) (va : va_list) (w : world X)
  : world X :=
  with_log w (log w ++ [strdup_vprintf fmt va w]).

Definition mail_storage_clear_error (w : world X) : world X :=
  with_storage w (mk_storage None false).

(** In each setter the old message is freed first; the slot is
    then assigned on every path, so the freed pointer is never
    the value of the field when the setter returns. *)
Definition mail_storage_set_error (fmt : option string) (va : va_list)
           (w : world X) : world X :=
  match fmt with
  | None => with_storage w (mk_storage None (syntax_error (storage w)))
  | Some f =>
      with_storage w (mk_storage (Some (strdup_vprintf f va w)) false)
  end.

Definition mail_storage_set_syntax_error (fmt : option string)
           (va : va_list) (w : world X) : world X :=
  match fmt with
  | None => with_storage w (mk_storage None (syntax_error (storage w)))
  | Some f =>
      with_storage w (mk_storage (Some (strdup_vprintf f va w)) true)
  end.

Definition mail_storage_set_internal_error (w : world X) : world X :=
  let t := localtime (ioloop_time w) in
  let (n, str) := strftime strftime_conv 256 CRITICAL_MSG_STAMP t in
  with_storage w
    (mk_storage (Some (if 0 <? n then str else CRITICAL_MSG)) false).

Definition mail_storage_set_critical (fmt : option string)
           (va : va_list) (w : world X) : world X :=
  match fmt with
  | None => with_storage w (mk_storage None (syntax_error (storage w)))
  | Some f =>
      let w1 := i_error "%s" [ArgStr (strdup_vprintf f va w)] w in
      mail_storage_set_internal_error w1
  end.

(** The error state of the storage: message and syntax flag. *)
Definition error_state (w : world X) : option string * bool :=
  (error (storage w), syntax_error (storage w)).
End Errors.

End MailStorage.

(** ** dbox-storage.c *)

Module Dbox.
Import MailStorage.

(** [struct stat], the two fields the reaper compares. *)
Record stat_t : Type := mk_stat { st_atime : Z; st_ctime : Z }.

(** [struct mail_index_header], the field create inspects (uint32). *)
Record mail_index_header : Type := mk_header { uid_validity : Z }.

(** [struct mailbox], the fields the two entry points read;
    [list_props] is [box->list->props]. *)
Record mailbox : Type := mk_mailbox {
  box_name : string;
  box_path : string;
  list_props : Z
}.

(** Constants of headers that are not part of the embedded files. *)
Class DboxConsts : Type := {
  DBOX_TMP_DELETE_SECS : Z;
  DBOX_TMP_SCAN_SECS : Z;
  MAILBOX_LIST_PROP_NO_NOSELECT : Z
}.

(** The collaborators: each takes the world it is called in and
    gives back its result and the world it leaves.  [stat] gives
    [None] when it returns a negative value (it has then set
    [errno] in the world it leaves).  [U] is
    [struct mailbox_update], passed through untouched. *)
Class Collaborators (X U : Type) : Type := {
  stat : string -> world X -> option stat_t * world X;
  mailbox_list_get_global_temp_prefix : world X -> string * world X;
  unlink_old_files : string -> string -> Z -> world X -> Z * world X;
  T_MAIL_ERR_MAILBOX_NOT_FOUND : string -> string;
  mail_error_eacces_msg : string -> string -> world X -> string * world X;
  index_storage_mailbox_open : mailbox -> bool -> world X -> Z * world X;
  mail_index_sync_begin : world X -> Z * world X;
  mail_index_get_header : world X -> mail_index_header;
  mailbox_create_indexes : mailbox -> option U -> world X -> Z * world X;
  mail_index_sync_rollback : world X -> world X;
  mail_index_sync_commit : world X -> Z * world X;
  mail_index_reset_error : world X -> world X
}.

(** Calls that leave the two embedded entry points, in order. *)
Inductive call : Type :=
| Call_stat (path : string)
| Call_get_global_temp_prefix
| Call_unlink_old_files (path prefix : string) (min_time : Z)
| Call_eacces_msg (func path : string)
| Call_set_error (msg : string)
| Call_set_critical (fmt : string) (va : va_list)
| Call_set_internal_error
| Call_index_open (box : mailbox) (create : bool)
| Call_sync_begin
| Call_get_header
| Call_create_indexes
| Call_sync_rollback
| Call_sync_commit
| Call_reset_error.

(** A run either returns or dies in [i_assert] (which panics). *)
Inductive result (A : Type) : Type :=
| Returned (a : A)
| Panic (msg : string).

Arguments Returned {A}.
Arguments Panic {A}.

Record state (X : Type) : Type := mk_state {
  trace : list call;
  w : world X
}.

Arguments mk_state {X}.
Arguments trace {X}.
Arguments w {X}.

Definition M (X A : Type) : Type := state X -> result A * state X.

Definition ret {X A} (a : A) : M X A := fun s => (Returned a, s).

Definition bind {X A B} (m : M X A) (k : A -> M X B) : M X B :=
  fun s =>
    match m s with
    | (Returned a, s') => k a s'
    | (Panic msg, s') => (Panic msg, s')
    end.

Notation "x <- m ;; k" := (bind m (fun x => k))
  (at level 61, m at next level, right associativity).
Notation "m ;;; k" := (bind m (fun _ => k))
  (at level 61, right associativity).

(** A call to a collaborator that returns a value. *)
Definition invoke {X A} (c : call) (f : world X -> A * world X) : M X A :=
  fun s =>
    let (a, w') := f (w s) in
    (Returned a, mk_state (trace s ++ [c]) w').

(** A call to a [void] function. *)
Definition perform {X} (c : call) (f : world X -> world X) : M X unit :=
  invoke c (fun w0 => (tt, f w0)).

(** Reading a global or a field. *)
Definition read {X A} (f : world X -> A) : M X A :=
  fun s => (Returned (f (w s)), s).

Definition i_assert {X} (b : bool) (msg : string) : M X unit :=
  fun s => if b then (Returned tt, s) else (Panic msg, s).

Section Lifecycle.
Context {L : LibcOps} {T : TimeT} {K : DboxConsts} {X U : Type}
        {C : Collaborators X U}.

(** The three time expressions are computed in [time_t]. *)
Definition dbox_cleanup_if_exists (path : string) : M X bool :=
  r <- invoke (Call_stat path) (stat path) ;;
  match r with
  | None => ret false
  | Some st =>
      now <- read ioloop_time ;;
      if st_atime st >? to_time_t (st_ctime st + DBOX_TMP_DELETE_SECS) then
        ret true
      else if st_atime st <? to_time_t (now - DBOX_TMP_SCAN_SECS) then
        prefix <- invoke Call_get_global_temp_prefix
                    mailbox_list_get_global_temp_prefix ;;
        now' <- read ioloop_time ;;
        let min_time := to_time_t (now' - DBOX_TMP_DELETE_SECS) in
        invoke (Call_unlink_old_files path prefix min_time)
               (unlink_old_files path prefix min_time) ;;;
        ret true
      else ret true
  end.

(** The call [mail_storage_set_error(storage, MAIL_ERROR_NOTFOUND,
    string)] of the open path gives a finished string; it stores
    it as the plain error, which is [mail_storage_set_error] with
    the format ["%s"]. *)
Definition set_error_string (msg : string) : M X unit :=
  perform (Call_set_error msg)
          (mail_storage_set_error (Some "%s") [ArgStr msg]).

Definition set_critical (fmt : string) (va : va_list) : M X unit :=
  perform (Call_set_critical fmt va)
          (mail_storage_set_critical (Some fmt) va).

Definition dbox_mailbox_open (box : mailbox) : M X Z :=
  ex <- dbox_cleanup_if_exists (box_path box) ;;
  if ex : bool then
    invoke (Call_index_open box false)
           (index_storage_mailbox_open box false)
  else
    e <- read errno ;;
    if e =? ENOENT then
      set_error_string (T_MAIL_ERR_MAILBOX_NOT_FOUND (box_name box)) ;;;
      ret (-1)
    else if e =? EACCES then
      msg <- invoke (Call_eacces_msg "stat" (box_path box))
               (mail_error_eacces_msg "stat" (box_path box)) ;;
      set_critical "%s" [ArgStr msg] ;;;
      ret (-1)
    else
      set_critical "stat(%s) failed: %m" [ArgStr (box_path box)] ;;;
      ret (-1).

Definition dbox_mailbox_create (box : mailbox) (update : option U)
           (directory : bool) : M X Z :=
  if directory &&
     (Z.land (list_props box) MAILBOX_LIST_PROP_NO_NOSELECT =? 0)
  then ret 0
  else
    o <- invoke (Call_index_open box false)
           (index_storage_mailbox_open box false) ;;
    if o <? 0 then ret (-1)
    else
      (* use syncing as a lock *)
      r <- invoke Call_sync_begin mail_index_sync_begin ;;
      if r <=? 0 then
        i_assert (negb (r =? 0)) "ret != 0" ;;;
        perform Call_set_internal_error
                mail_storage_set_internal_error ;;;
        perform Call_reset_error mail_index_reset_error ;;;
        ret (-1)
      else
        hdr <- invoke Call_get_header
                 (fun w0 => (mail_index_get_header w0, w0)) ;;
        let commit := invoke Call_sync_commit mail_index_sync_commit in
        if uid_validity hdr =? 0 then
          c <- invoke Call_create_indexes
                 (mailbox_create_indexes box update) ;;
          if c <? 0 then
            perform Call_sync_rollback mail_index_sync_rollback ;;;
            ret (-1)
          else commit
        else commit.
End Lifecycle.

End Dbox.

(** ** The backend-selection algorithm as the specification words it *)

Module Selection.
Import MailStorage.

Fixpoint all_alnum (s : string) : bool :=
  match s with
  | EmptyString => true
  | String c rest => i_isalnum c && all_alnum rest
  end.

(** The text before the first colon and the text after it. *)
Fixpoint split_colon (s : string) : option (string * string) :=
  match s with
  | EmptyString => None
  | String c rest =>
      if Ascii.eqb c ":" then Some (EmptyString, rest)
      else
        match split_colon rest with
        | Some (a, b) => Some (String c a, b)
        | None => None
        end
  end.

(** A match of [^[A-Za-z0-9]*:] : the prefix and the remainder. *)
Definition name_prefix (d : string) : option (string * string) :=
  match split_colon d with
  | Some (nm, rest) => if all_alnum nm then Some (nm, rest) else None
  | None => None
  end.

(** A match of [^[A-Za-z0-9]+:] : the prefix is not empty. *)
Definition name_prefix_nonempty (d : string) : option (string * string) :=
  match name_prefix d with
  | Some (EmptyString, _) => None
  | r => r
  end.

Section ThreeWay.
Variable storages : list mail_storage_class.
Variables (user : string) (flags : mail_storage_flags)
          (lock_method : mail_storage_lock_method).
(** The recogniser of the explicit [name:] form. *)
Variable explicit : string -> option (string * string).

(** Empty data: the default; an explicit name: [create] with the
    name and the remainder; otherwise autodetection and, on a
    match, that class's [create] with the whole data. *)
Definition three_way (data : option string)
  : option mail_storage * list vcall :=
  match data with
  | None | Some EmptyString =>
      mail_storage_create_default storages user flags lock_method
  | Some d =>
      match explicit d with
      | Some (nm, rest) =>
          mail_storage_create storages user flags lock_method
                              nm (Some rest)
      | None =>
          match mail_storage_autodetect storages flags data with
          | (Some c, t) =>
              (v_create c data user flags lock_method,
               (t ++ [VCreate (name c) data])%list)
          | (None, t) => (None, t)
          end
      end
  end.
End ThreeWay.

(** The branch as the specification states it, with [+]. *)
Definition create_with_data_spec storages user flags lock_method :=
  three_way storages user flags lock_method name_prefix_nonempty.

(** The same with [*]: the name may be empty. *)
Definition create_with_data_star storages user flags lock_method :=
  three_way storages user flags lock_method name_prefix.

End Selection.

(** ** The client-visible internal-error text *)

Module Template.
Import MailStorage.

Section Text.
Context {L : LibcOps}.

(** The timestamp that follows the fixed message. *)
Definition stamp_text (t : tm) : string :=
  " [" ++ strftime_conv "Y" t ++ "-" ++ strftime_conv "m" t ++ "-"
  ++ strftime_conv "d" t ++ " " ++ strftime_conv "H" t ++ ":"
  ++ strftime_conv "M" t ++ ":" ++ strftime_conv "S" t ++ "]".

(** The fixed message with its timestamp, or the fixed message
    alone when the two do not fit the 256-byte buffer. *)
Definition internal_error_text (now : Z) : string :=
  let text := CRITICAL_MSG ++ stamp_text (localtime now) in
  if (String.length text + 1 <=? 256)%nat then text else CRITICAL_MSG.
End Text.

(** An error-setting call replaces the whole error state when the
    state it leaves does not depend on the state it found. *)
Definition replaces_whole_state {X} (op : world X -> world X) : Prop :=
  forall (w : world X) (prior : mail_storage),
    error_state (op (with_storage w prior)) = error_state (op w).
End Template.

(** ** Reading a trace of calls *)

Module Trace.
Import Dbox.

Definition is_sync_begin (c : call) : bool :=
  match c with Call_sync_begin => true | _ => false end.

Definition is_create_indexes (c : call) : bool :=
  match c with Call_create_indexes => true | _ => false end.

Definition is_rollback (c : call) : bool :=
  match c with Call_sync_rollback => true | _ => false end.

Definition is_commit (c : call) : bool :=
  match c with Call_sync_commit => true | _ => false end.

(** The two calls that end the scope of a sync guard. *)
Definition is_release (c : call) : bool := is_rollback c || is_commit c.

Definition count (p : call -> bool) (t : list call) : nat :=
  List.length (List.filter p t).

(** A run from an empty trace: what came back, the calls made and
    the world left. *)
Definition run {X A} (m : M X A) (w0 : world X)
  : result A * list call * world X :=
  let (r, s) := m (mk_state [] w0) in (r, trace s, w s).

(** The test at the head of [dbox_mailbox_create]. *)
Definition directory_only {K : DboxConsts} (box : mailbox)
           (directory : bool) : bool :=
  directory && (Z.land (list_props box) MAILBOX_LIST_PROP_NO_NOSELECT =? 0).
End Trace.

(** ** A small concrete instance, for running the embedding *)

Module Demo.
Import MailStorage Dbox.

#[export] Instance libc : LibcOps := {
  localtime := fun t =>
    mk_tm 126 10 2 (t / 3600 mod 24) (t / 60 mod 60) (t mod 60);
  strftime_conv := c_conv;
  strerror := fun e =>
    if e =? ENOENT then "No such file or directory"
    else if e =? EACCES then "Permission denied"
    else "Input/output error"
}.

Definition st_plain : mail_storage := mk_storage (Some "plain") false.

(** A class that claims every data string and always creates. *)
Definition greedy : mail_storage_class :=
  mk_class "mbox" (fun _ _ _ _ => Some st_plain) (fun _ _ => true).

(** A class that never recognises any data but creates when named. *)
Definition shy : mail_storage_class :=
  mk_class "maildir" (fun _ _ _ _ => Some st_plain) (fun _ _ => false).

Definition w0 : world unit := mk_world 0 45296 [] (mk_storage None false) tt.

#[export] Instance time64 : TimeT := { time_t_bits := 64 }.

#[export] Instance consts : DboxConsts := {
  DBOX_TMP_DELETE_SECS := 36 * 60 * 60;
  DBOX_TMP_SCAN_SECS := 8 * 60 * 60;
  MAILBOX_LIST_PROP_NO_NOSELECT := 4
}.

(** The rest of the world as a script: what each collaborator will
    answer.  The index header is the one piece that changes: a
    successful [mailbox_create_indexes] stamps the uid-validity. *)
Record script : Type := mk_script {
  s_stat : option stat_t;
  s_stat_errno : Z;
  s_unlink : Z;
  s_open : Z;
  s_begin : Z;
  s_uid_validity : Z;
  s_create : Z;
  s_commit : Z
}.

Definition with_ext {X Y} (w : world X) (e : Y) : world Y :=
  mk_world (errno w) (ioloop_time w) (log w) (storage w) e.

Definition with_errno {X} (w : world X) (e : Z) : world X :=
  mk_world e (ioloop_time w) (log w) (storage w) (ext w).

Definition stamp_uid_validity (x : script) (v : Z) : script :=
  mk_script (s_stat x) (s_stat_errno x) (s_unlink x) (s_open x)
            (s_begin x) v (s_create x) (s_commit x).

#[export] Instance scripted : Collaborators script unit := {
  stat := fun _ w =>
    match s_stat (ext w) with
    | Some st => (Some st, w)
    | None => (None, with_errno w (s_stat_errno (ext w)))
    end;
  mailbox_list_get_global_temp_prefix := fun w => ("temp.", w);
  unlink_old_files := fun _ _ _ w => (s_unlink (ext w), w);
  T_MAIL_ERR_MAILBOX_NOT_FOUND := fun n => "Mailbox doesn't exist: " ++ n;
  mail_error_eacces_msg := fun f p w =>
    (f ++ "(" ++ p ++ ") failed: Permission denied", w);
  index_storage_mailbox_open := fun _ _ w => (s_open (ext w), w);
  mail_index_sync_begin := fun w => (s_begin (ext w), w);
  mail_index_get_header := fun w => mk_header (s_uid_validity (ext w));
  mailbox_create_indexes := fun _ _ w =>
    if s_create (ext w) <? 0 then (s_create (ext w), w)
    else (s_create (ext w),
          with_ext w (stamp_uid_validity (ext w) (ioloop_time w)));
  mail_index_sync_rollback := fun w => w;
  mail_index_sync_commit := fun w => (s_commit (ext w), w);
  mail_index_reset_error := fun w => w
}.

Definition inbox : mailbox := mk_mailbox "INBOX" "/m/INBOX" 0.

(** A never-initialised mailbox on a healthy file system. *)
Definition fresh : script :=
  mk_script (Some (mk_stat 45000 45000)) 0 0 0 1 0 0 0.

Definition world_of (x : script) : world script :=
  mk_world 0 45296 [] (mk_storage None false) x.

(** The same mailbox when the index refuses the sync. *)
Definition broken : script :=
  mk_script (Some (mk_stat 45000 45000)) 0 0 0 (-1) 0 0 0.

(** A mailbox whose directory cannot be examined. *)
Definition forbidden : script :=
  mk_script None EACCES 0 0 1 0 0 0.

Definition stamped_text : string :=
  "Internal error occured. Refer to server log for more information. [2026-11-02 12:34:56]".
End Demo.

(** ** The registry as an array of class pointers *)

Module Registry.
Import MailStorage.

(** The address of a registered [struct mail_storage]. *)
Definition class_ptr : Type := nat.

(** [mail_storage_init]: the array is created empty. *)
Definition mail_storage_init : list class_ptr := [].

(** [array_append(&storages, &storage_class, 1)] *)
Definition mail_storage_class_register (p : class_ptr)
           (storages : list class_ptr) : list class_ptr :=
  (storages ++ [p])%list.

(** The loop deletes the first slot holding the pointer and stops. *)
Fixpoint mail_storage_class_unregister (p : class_ptr)
         (storages : list class_ptr) : list class_ptr :=
  match storages with
  | [] => []
  | q :: rest =>
      if Nat.eqb q p then rest
      else q :: mail_storage_class_unregister p rest
  end.

(** [array_get(&storages, &count)] with every slot dereferenced in
    the memory [heap]. *)
Definition classes (heap : class_ptr -> mail_storage_class)
           (storages : list class_ptr) : list mail_storage_class :=
  List.map heap storages.

(** The bytes [strcasecmp] compares, after lower-casing. *)
Fixpoint folded (s : string) : list Z :=
  match s with
  | EmptyString => []
  | String c rest => i_tolower c :: folded rest
  end.
End Registry.

(** ** dbox-storage.c: the list settings *)

Module ListSettings.

(** [struct mailbox_list_settings], the four fields the function reads
    and writes. *)
Record mailbox_list_settings : Type := mk_settings {
  layout : option string;
  subscription_fname : option string;
  maildir_name : option string;
  mailbox_dir_name : option string
}.

(** The names of headers that are not part of the embedded files. *)
Class DboxNames : Type := {
  MAILBOX_LIST_NAME_FS : string;
  DBOX_SUBSCRIPTION_FILE_NAME : string;
  DBOX_MAILDIR_NAME : string;
  DBOX_MAILBOX_DIR_NAME : string
}.

Definition or_default (field : option string) (d : string) : option string :=
  match field with
  | None => Some d
  | Some _ => field
  end.

Definition dbox_storage_get_list_settings {N : DboxNames}
           (set : mailbox_list_settings) : mailbox_list_settings :=
  let set1 :=
    mk_settings (or_default (layout set) MAILBOX_LIST_NAME_FS)
                (subscription_fname set) (maildir_name set)
                (mailbox_dir_name set) in
  let set2 :=
    mk_settings (layout set1)
                (or_default (subscription_fname set1)
                            DBOX_SUBSCRIPTION_FILE_NAME)
                (maildir_name set1) (mailbox_dir_name set1) in
  let set3 :=
    mk_settings (layout set2) (subscription_fname set2)
                (or_default (maildir_name set2) DBOX_MAILDIR_NAME)
                (mailbox_dir_name set2) in
  mk_settings (layout set3) (subscription_fname set3) (maildir_name set3)
              (or_default (mailbox_dir_name set3) DBOX_MAILBOX_DIR_NAME).

(** Every field of the settings is set. *)
Definition complete (set : mailbox_list_settings) : Prop :=
  layout set <> None /\ subscription_fname set <> None
  /\ maildir_name set <> None /\ mailbox_dir_name set <> None.

(** [b] keeps every field that [a] has set. *)
Definition keeps (a b : mailbox_list_settings) : Prop :=
  (forall x, layout a = Some x -> layout b = Some x)
  /\ (forall x, subscription_fname a = Some x ->
                subscription_fname b = Some x)
  /\ (forall x, maildir_name a = Some x -> maildir_name b = Some x)
  /\ (forall x, mailbox_dir_name a = Some x -> mailbox_dir_name b = Some x).
End ListSettings.

(** ** More ways to read a trace *)

Module Calls.
Import Dbox.

Definition is_stat (c : call) : bool :=
  match c with Call_stat _ => true | _ => false end.

(** A directory scan by the reaper. *)
Definition is_scan (c : call) : bool :=
  match c with Call_unlink_old_files _ _ _ => true | _ => false end.

Definition is_index_open (c : call) : bool :=
  match c with Call_index_open _ _ => true | _ => false end.

(** A call that writes the storage's error slot. *)
Definition is_error_setter (c : call) : bool :=
  match c with
  | Call_set_error _ | Call_set_critical _ _ | Call_set_internal_error =>
      true
  | _ => false
  end.

Definition is_panic {A} (r : result A) : bool :=
  match r with Panic _ => true | Returned _ => false end.

(** The gate of the reaper on the times of a directory. *)
Definition due_for_scan {K : DboxConsts} (st : stat_t) (now : Z) : bool :=
  negb (st_atime st >? st_ctime st + DBOX_TMP_DELETE_SECS)
  && (st_atime st <? now - DBOX_TMP_SCAN_SECS).
End Calls.

(** ** More of the concrete instance *)

Module Places.
Import MailStorage Registry ListSettings Dbox Demo.

(** A memory with the two demo classes at addresses 1 and 2. *)
Definition heap (p : class_ptr) : mail_storage_class :=
  match p with
  | 1%nat => greedy
  | _ => shy
  end.

#[export] Instance names : DboxNames := {
  MAILBOX_LIST_NAME_FS := "fs";
  DBOX_SUBSCRIPTION_FILE_NAME := "subscriptions";
  DBOX_MAILDIR_NAME := "dbox-Mails";
  DBOX_MAILBOX_DIR_NAME := "mailboxes"
}.

(** A mailbox that is missing, and one whose index cannot be opened. *)
Definition missing : script := mk_script None ENOENT 0 0 1 0 0 0.

Definition unopenable : script :=
  mk_script (Some (mk_stat 45000 45000)) 0 0 (-1) 1 0 0 0.

(** A class that creates for no one. *)
Definition useless : mail_storage_class :=
  mk_class "raw" (fun _ _ _ _ => None) (fun _ _ => false).
End Places.

(** ** What the index engine and the backend are relied on for *)

Module Contract.
Import Dbox.

Section Assumptions.
Context {X U : Type} {C : Collaborators X U}.

(** The mailbox has its uid-validity: the header shows a non-zero
    value. *)
Definition stamped (wd : world X) : Prop :=
  uid_validity (mail_index_get_header wd) <> 0.

(** The header is read from the index, not from the storage's error
    slot; a uid-validity, once in the header, stays through an index
    open, a sync-begin, a commit and an error reset; and an
    initialisation that succeeded shows in the header once its commit
    has succeeded. *)
Record index_contract : Prop := {
  header_of_index :
    forall wd st,
      mail_index_get_header (with_storage wd st) = mail_index_get_header wd;
  open_keeps :
    forall box create wd,
      stamped wd ->
      stamped (snd (index_storage_mailbox_open box create wd));
  begin_keeps :
    forall wd, stamped wd -> stamped (snd (mail_index_sync_begin wd));
  commit_keeps :
    forall wd, stamped wd -> stamped (snd (mail_index_sync_commit wd));
  reset_keeps :
    forall wd, stamped wd -> stamped (mail_index_reset_error wd);
  init_stamps :
    forall box update wd,
      0 <= fst (mailbox_create_indexes box update wd) ->
      0 <= fst (mail_index_sync_commit
                  (snd (mailbox_create_indexes box update wd))) ->
      stamped (snd (mail_index_sync_commit
                      (snd (mailbox_create_indexes box update wd))))
}.
End Assumptions.

(** Creates of one mailbox, one after the other (each inside its own
    guard); a panic ends the sequence. *)
Fixpoint create_all {L : LibcOps} {K : DboxConsts} {X U : Type}
         {C : Collaborators X U} (box : mailbox)
         (reqs : list (option U * bool)) : M X unit :=
  match reqs with
  | [] => ret tt
  | (update, directory) :: rest =>
      dbox_mailbox_create box update directory ;;; create_all box rest
  end.
End Contract.

Module Stamping.
Import Dbox Demo.

(** The scripted collaborators with a backend whose initialisation
    never writes a zero uid-validity. *)
Definition stamping : Collaborators script unit := {|
  stat := stat (Collaborators := scripted);
  mailbox_list_get_global_temp_prefix :=
    mailbox_list_get_global_temp_prefix (Collaborators := scripted);
  unlink_old_files := unlink_old_files (Collaborators := scripted);
  T_MAIL_ERR_MAILBOX_NOT_FOUND :=
    T_MAIL_ERR_MAILBOX_NOT_FOUND (Collaborators := scripted);
  mail_error_eacces_msg := mail_error_eacces_msg (Collaborators := scripted);
  index_storage_mailbox_open :=
    index_storage_mailbox_open (Collaborators := scripted);
  mail_index_sync_begin := mail_index_sync_begin (Collaborators := scripted);
  mail_index_get_header := mail_index_get_header (Collaborators := scripted);
  mailbox_create_indexes := fun _ _ w =>
    if s_create (ext w) <? 0 then (s_create (ext w), w)
    else (s_create (ext w),
          with_ext w (stamp_uid_validity (ext w)
                                         (Z.max 1 (ioloop_time w))));
  mail_index_sync_rollback :=
    mail_index_sync_rollback (Collaborators := scripted);
  mail_index_sync_commit :=
    mail_index_sync_commit (Collaborators := scripted);
  mail_index_reset_error :=
    mail_index_reset_error (Collaborators := scripted)
|}.
End Stamping.

(** * Properties *)

(** ** Backend selection *)

Module SelectionFacts.
Import MailStorage Selection.

Lemma skip_alnum_length (d : string) :
  (String.length (skip_alnum d) <= String.length d)%nat.
Proof.
  induction d as [|c r IH]; simpl; [lia|].
  destruct (i_isalnum c); simpl; lia.
Qed.

Lemma alnum_not_colon (c : ascii) :
  i_isalnum c = true -> Ascii.eqb c ":" = false.
Proof.
  intros H. destruct (Ascii.eqb_spec c ":") as [->|]; [|reflexivity].
  discriminate H.
Qed.

Lemma t_strdup_until_cons (c : ascii) (r p : string) :
  (String.length p <= String.length r)%nat ->
  t_strdup_until (String c r) p = String c (t_strdup_until r p).
Proof.
  intros H. unfold t_strdup_until. simpl String.length.
  replace (S (String.length r) - String.length p)%nat
    with (S (String.length r - String.length p)) by lia.
  reflexivity.
Qed.

Lemma t_strdup_until_self (d : string) : t_strdup_until d d = EmptyString.
Proof.
  unfold t_strdup_until. rewrite Nat.sub_diag. destruct d; reflexivity.
Qed.

(** The pointer scan of the source recognises [^[A-Za-z0-9]*:]. *)
Lemma scan_is_name_prefix (d : string) :
  (if Ascii.eqb (deref (skip_alnum d)) ":"
   then Some (t_strdup_until d (skip_alnum d), next (skip_alnum d))
   else None) = name_prefix d.
Proof.
  unfold name_prefix.
  induction d as [|c r IH]; [reflexivity|].
  simpl skip_alnum. simpl split_colon.
  destruct (i_isalnum c) eqn:Ec.
  - rewrite (alnum_not_colon c Ec).
    rewrite (t_strdup_until_cons c r _ (skip_alnum_length r)).
    destruct (Ascii.eqb (deref (skip_alnum r)) ":").
    + destruct (split_colon r) as [[a b]|]; [|discriminate IH].
      simpl all_alnum. rewrite Ec. simpl.
      destruct (all_alnum a); [|discriminate IH].
      injection IH as <- <-. reflexivity.
    + destruct (split_colon r) as [[a b]|]; [|reflexivity].
      simpl all_alnum. rewrite Ec. simpl.
      destruct (all_alnum a); [discriminate IH|reflexivity].
  - simpl deref. destruct (Ascii.eqb c ":").
    + rewrite t_strdup_until_self. reflexivity.
    + destruct (split_colon r) as [[a b]|]; [|reflexivity].
      simpl all_alnum. rewrite Ec. reflexivity.
Qed.

Lemma split_colon_sound (d : string) :
  forall a b, split_colon d = Some (a, b) -> d = a ++ String ":" b.
Proof.
  induction d as [|c r IH]; simpl; intros a b H; [discriminate|].
  destruct (Ascii.eqb_spec c ":") as [->|_].
  - injection H as <- <-. reflexivity.
  - destruct (split_colon r) as [[a' b']|]; [|discriminate].
    injection H as <- <-. simpl. f_equal. apply IH. reflexivity.
Qed.

Lemma split_colon_alnum (nm rest : string) :
  all_alnum nm = true ->
  split_colon (nm ++ String ":" rest) = Some (nm, rest).
Proof.
  induction nm as [|c r IH]; simpl; intros H; [reflexivity|].
  apply andb_prop in H. destruct H as [Hc Hr].
  rewrite (alnum_not_colon c Hc), (IH Hr). reflexivity.
Qed.

(** [name_prefix] is the match of [^[A-Za-z0-9]*:]. *)
Lemma name_prefix_iff (d nm rest : string) :
  name_prefix d = Some (nm, rest)
  <-> d = nm ++ String ":" rest /\ all_alnum nm = true.
Proof.
  unfold name_prefix. split.
  - destruct (split_colon d) as [[a b]|] eqn:E; [|discriminate].
    destruct (all_alnum a) eqn:Ea; [|discriminate].
    intros H. injection H as <- <-.
    split; [apply split_colon_sound; exact E | exact Ea].
  - intros [-> Ha]. rewrite (split_colon_alnum nm rest Ha), Ha.
    reflexivity.
Qed.

Lemma with_data_is_three_way storages user flags lock_method data :
  mail_storage_create_with_data storages user flags lock_method data
  = create_with_data_star storages user flags lock_method data.
Proof.
  unfold create_with_data_star, three_way, mail_storage_create_with_data.
  destruct data as [d|]; [|reflexivity].
  destruct d as [|c r]; [reflexivity|].
  rewrite <- (scan_is_name_prefix (String c r)).
  destruct (Ascii.eqb (deref (skip_alnum (String c r))) ":"); reflexivity.
Qed.

(** C2 (as amended): [mail_storage_create_with_data] is the three-way
    branch in which the explicit form is [^[A-Za-z0-9]*:] (the name
    before the colon may be empty): empty or absent data goes to
    [mail_storage_create_default]; data of the explicit form goes to
    [mail_storage_create] with the prefix as name and the remainder
    as data, whatever the classes' autodetect predicates say;
    anything else goes through autodetection in registration order
    and, on a match, to that class's create with the whole data. *)
Theorem create_with_data_three_way storages user flags lock_method :
  let with_data :=
    mail_storage_create_with_data storages user flags lock_method in
  (forall data,
      with_data data
      = create_with_data_star storages user flags lock_method data)
  /\ with_data None
     = mail_storage_create_default storages user flags lock_method
  /\ with_data (Some EmptyString)
     = mail_storage_create_default storages user flags lock_method
  /\ (forall nm rest,
         all_alnum nm = true ->
         with_data (Some (nm ++ String ":" rest))
         = mail_storage_create storages user flags lock_method
                               nm (Some rest))
  /\ (forall d,
         d <> EmptyString ->
         (forall nm rest, all_alnum nm = true -> d <> nm ++ String ":" rest) ->
         with_data (Some d)
         = match mail_storage_autodetect storages flags (Some d) with
           | (Some c, t) =>
               (v_create c (Some d) user flags lock_method,
                (t ++ [VCreate (name c) (Some d)])%list)
           | (None, t) => (None, t)
           end).
Proof.
  cbv zeta. split; [apply with_data_is_three_way|].
  split; [reflexivity|]. split; [reflexivity|]. split.
  - intros nm rest Hnm. rewrite with_data_is_three_way.
    unfold create_with_data_star, three_way.
    assert (Hp : name_prefix (nm ++ String ":" rest) = Some (nm, rest))
      by (apply name_prefix_iff; split; [reflexivity|exact Hnm]).
    rewrite Hp. destruct nm; reflexivity.
  - intros d Hd Hno. rewrite with_data_is_three_way.
    unfold create_with_data_star, three_way.
    destruct d as [|c r]; [contradiction Hd; reflexivity|].
    destruct (name_prefix (String c r)) as [[nm rest]|] eqn:Hp;
      [|reflexivity].
    apply name_prefix_iff in Hp. destruct Hp as [Heq Hnm].
    contradiction (Hno nm rest Hnm Heq).
Qed.

(** A class whose autodetect rejects everything is still the one
    created when the data names it. *)
Lemma create_with_data_three_way_witness :
  all_alnum "MailDir" = true
  /\ v_autodetect Demo.shy (Some "MailDir:/x") 0 = false
  /\ mail_storage_create_with_data [Demo.greedy; Demo.shy] "u" 0 0
                                   (Some "MailDir:/x")
     = (Some Demo.st_plain, [VCreate "maildir" (Some "/x")]).
Proof.
  split; [reflexivity|]. split; [reflexivity|].
  exact (proj1 (proj2 (proj2 (proj2
           (create_with_data_three_way [Demo.greedy; Demo.shy] "u" 0 0))))
           "MailDir" "/x" eq_refl).
Defined.

(** C2 (as stated, refuted): with the data [":x"] the source takes the
    explicit-name branch with the empty name and finds no class,
    while the branch on [^[A-Za-z0-9]+:] autodetects and creates. *)
Lemma create_with_data_plus_fails :
  mail_storage_create_with_data [Demo.greedy] "u" 0 0 (Some ":x")
    = (None, [])
  /\ create_with_data_spec [Demo.greedy] "u" 0 0 (Some ":x")
    = (Some Demo.st_plain,
       [VAutodetect "mbox" (Some ":x"); VCreate "mbox" (Some ":x")])
  /\ mail_storage_create_with_data [Demo.greedy] "u" 0 0 (Some ":x")
     <> create_with_data_spec [Demo.greedy] "u" 0 0 (Some ":x").
Proof.
  split; [reflexivity|]. split; [reflexivity|]. discriminate.
Qed.

Example no_prefix_autodetects :
  mail_storage_create_with_data [Demo.shy; Demo.greedy] "u" 0 0
                                (Some "/var/mail")
  = (Some Demo.st_plain,
     [VAutodetect "maildir" (Some "/var/mail");
      VAutodetect "mbox" (Some "/var/mail");
      VCreate "mbox" (Some "/var/mail")]).
Proof. reflexivity. Qed.

End SelectionFacts.

(** ** The error state *)

Module ErrorFacts.
Import MailStorage Template.

Section Facts.
Context {L : LibcOps} {X : Type}.
Implicit Types (w : world X) (va : va_list) (f : string).

Lemma append_empty_r (s : string) : s ++ EmptyString = s.
Proof. induction s as [|c r IH]; simpl; [|rewrite IH]; reflexivity. Qed.

(** The format ["%s"] gives back its argument. *)
Lemma vprintf_percent_s (e s : string) :
  vprintf e "%s" [ArgStr s] = s.
Proof. simpl. apply append_empty_r. Qed.

Lemma strdup_percent_s (s : string) w :
  strdup_vprintf "%s" [ArgStr s] w = s.
Proof. unfold strdup_vprintf. apply vprintf_percent_s. Qed.

Lemma expand_stamp (t : tm) :
  strftime_expand strftime_conv CRITICAL_MSG_STAMP t
  = CRITICAL_MSG ++ stamp_text t.
Proof. reflexivity. Qed.

Lemma critical_text_length (s : string) :
  (0 <? Z.of_nat (String.length (CRITICAL_MSG ++ s))) = true.
Proof.
  apply Z.ltb_lt. unfold CRITICAL_MSG. cbn [append String.length]. lia.
Qed.

Lemma set_internal_error_eq w :
  mail_storage_set_internal_error w
  = with_storage w
      (mk_storage (Some (internal_error_text (ioloop_time w))) false).
Proof.
  unfold mail_storage_set_internal_error, strftime, internal_error_text.
  rewrite expand_stamp.
  destruct (String.length _ + 1 <=? 256)%nat; [|reflexivity].
  rewrite critical_text_length. reflexivity.
Qed.

(** C6: for a format that is not NULL, [mail_storage_set_critical]
    appends the formatted detail, as it is, to the operator log and
    then sets the internal error on the world so obtained: the stored
    message is the fixed text with its timestamp (the fixed text alone
    when the timestamp does not fit), the syntax flag is clear, and
    the stored message is the one [mail_storage_set_internal_error]
    stores without any detail, so it carries nothing of the detail. *)
Theorem set_critical_logs_then_hides f va w :
  let detail := strdup_vprintf f va w in
  let w' := mail_storage_set_critical (Some f) va w in
  w' = mail_storage_set_internal_error (with_log w (log w ++ [detail])%list)
  /\ log w' = (log w ++ [detail])%list
  /\ error (storage w') = Some (internal_error_text (ioloop_time w))
  /\ (internal_error_text (ioloop_time w)
      = CRITICAL_MSG ++ stamp_text (localtime (ioloop_time w))
      \/ internal_error_text (ioloop_time w) = CRITICAL_MSG)
  /\ syntax_error (storage w') = false
  /\ error_state w' = error_state (mail_storage_set_internal_error w).
Proof.
  cbv zeta. unfold mail_storage_set_critical, i_error.
  rewrite strdup_percent_s.
  rewrite !set_internal_error_eq. cbn.
  repeat split.
  unfold internal_error_text.
  destruct (String.length _ + 1 <=? 256)%nat; [left|right]; reflexivity.
Qed.

(** C10: with a NULL format [mail_storage_set_critical] only clears
    the message: nothing is logged, no internal-error text is stored,
    and the syntax flag (like everything else) stays as it was. *)
Theorem set_critical_null_partial_clear va w :
  let w' := mail_storage_set_critical None va w in
  error (storage w') = None
  /\ log w' = log w
  /\ syntax_error (storage w') = syntax_error (storage w)
  /\ error (storage w') <> error (storage (mail_storage_set_internal_error w))
  /\ w' = with_storage w (mk_storage None (syntax_error (storage w))).
Proof.
  cbv zeta. rewrite set_internal_error_eq. cbn.
  repeat split. discriminate.
Qed.

(** C5 (as amended): every setter discards the prior message.
    [mail_storage_set_internal_error], and the three variadic setters
    when the format is not NULL, replace message and syntax flag
    together, by a pair the prior error state has no part in.  With a
    NULL format the three variadic setters clear the message and keep
    the syntax flag of the prior state. *)
Theorem setters_replace_error_state f va w (prior : mail_storage) :
  let w0 := with_storage w prior in
  error_state (mail_storage_set_error (Some f) va w0)
    = (Some (strdup_vprintf f va w), false)
  /\ error_state (mail_storage_set_syntax_error (Some f) va w0)
    = (Some (strdup_vprintf f va w), true)
  /\ error_state (mail_storage_set_internal_error w0)
    = (Some (internal_error_text (ioloop_time w)), false)
  /\ error_state (mail_storage_set_critical (Some f) va w0)
    = (Some (internal_error_text (ioloop_time w)), false)
  /\ error_state (mail_storage_set_error None va w0)
    = (None, syntax_error prior)
  /\ error_state (mail_storage_set_syntax_error None va w0)
    = (None, syntax_error prior)
  /\ error_state (mail_storage_set_critical None va w0)
    = (None, syntax_error prior).
Proof.
  cbv zeta. unfold mail_storage_set_critical, i_error.
  rewrite !set_internal_error_eq. cbn. repeat split.
Qed.
End Facts.
End ErrorFacts.

Module ErrorRuns.
Import MailStorage Template Demo.

(** C5 (as stated, refuted): after a syntax error, a NULL-format
    [mail_storage_set_error] leaves no message with the syntax flag
    still set: the message is that of the second call, the flag that
    of the first, so the call did not replace the whole state. *)
Lemma null_format_keeps_flag :
  let w1 := mail_storage_set_syntax_error
              (Some "bad name") [] w0 in
  let w2 := mail_storage_set_error None [] w1 in
  error_state w1 = (Some "bad name", true)
  /\ error_state w2 = (None, true)
  /\ error_state
       (mail_storage_set_error None [] w0) = (None, false)
  /\ ~ replaces_whole_state
        (mail_storage_set_error (X := unit) None []).
Proof.
  cbv zeta. repeat split.
  intros H. specialize (H w0 (mk_storage None true)). discriminate H.
Qed.

Example set_critical_demo :
  let w1 := mail_storage_set_critical
              (Some "stat(%s) failed: %m") [ArgStr "/m/x"] w0 in
  log w1 = ["stat(/m/x) failed: Input/output error"]
  /\ error_state w1
     = (Some "Internal error occured. Refer to server log for more information. [2026-11-02 12:34:56]",
        false).
Proof. split; reflexivity. Qed.

End ErrorRuns.

(** ** The dbox lifecycle *)

Module DboxFacts.
Import MailStorage Dbox Trace Template Contract.
Local Open Scope list_scope.

Section Facts.
Context {L : LibcOps} {T : TimeT} {K : DboxConsts} {X U : Type}
        {C : Collaborators X U}.
Implicit Types (s : state X) (box : mailbox) (update : option U).

Ltac unfold_monad :=
  unfold set_error_string, set_critical, perform, bind, invoke, read, ret,
    i_assert.

Ltac norm := cbv beta iota; cbn [w trace snd fst].

Ltac trace_extends :=
  cbn [snd trace w]; rewrite <- ?app_assoc; cbn [app];
  eexists; reflexivity.

Lemma time_t_modulus :
  2 ^ Z.pos time_t_bits = 2 * 2 ^ (Z.pos time_t_bits - 1)
  /\ 0 < 2 ^ (Z.pos time_t_bits - 1).
Proof.
  split.
  - replace (Z.pos time_t_bits) with (Z.succ (Z.pos time_t_bits - 1))
      at 1 by lia.
    apply Z.pow_succ_r. lia.
  - apply Z.pow_pos_nonneg; lia.
Qed.

(** A representable value is stored as it is. *)
Lemma to_time_t_small (z : Z) : in_time_t z -> to_time_t z = z.
Proof.
  unfold in_time_t, to_time_t, time_t_min, time_t_max.
  destruct time_t_modulus as [Hm Hh]. intros Hz.
  rewrite Z.mod_small; lia.
Qed.

(** What is stored is never above a value that is not below the
    least [time_t]. *)
Lemma to_time_t_le (z : Z) : time_t_min <= z -> to_time_t z <= z.
Proof.
  unfold to_time_t. destruct time_t_modulus as [Hm Hh]. intros Hz.
  assert (H := Z.mod_le (z - time_t_min) (2 ^ Z.pos time_t_bits)).
  lia.
Qed.

(** C9: [dbox_mailbox_create] returns 0 at once, with no call made
    and the world untouched, exactly when [directory] is set and the
    list's [MAILBOX_LIST_PROP_NO_NOSELECT] bit is clear (the list can
    hold a bare directory, so none needs to be made a mailbox); in
    every other case its first act is to open the index. *)
Theorem create_directory_only box update directory s :
  (dbox_mailbox_create box update directory s = (Returned 0, s)
   <-> directory = true
       /\ Z.land (list_props box) MAILBOX_LIST_PROP_NO_NOSELECT = 0)
  /\ (directory_only box directory = false ->
      exists rest,
        trace (snd (dbox_mailbox_create box update directory s))
        = trace s ++ Call_index_open box false :: rest).
Proof.
  assert (Hlate : directory_only box directory = false ->
      exists rest,
        trace (snd (dbox_mailbox_create box update directory s))
        = trace s ++ Call_index_open box false :: rest).
  { intros Hd. unfold dbox_mailbox_create. fold (directory_only box directory).
    rewrite Hd. unfold_monad.
    destruct (index_storage_mailbox_open box false (w s)) as [o w1].
    destruct (o <? 0); [exists []; reflexivity|]. norm.
    destruct (mail_index_sync_begin w1) as [r w2].
    destruct (r <=? 0).
    - destruct (negb (r =? 0)); trace_extends.
    - norm. destruct (uid_validity (mail_index_get_header w2) =? 0); norm.
      + destruct (mailbox_create_indexes box update w2) as [ci w3].
        destruct (ci <? 0); [trace_extends|]. norm.
        destruct (mail_index_sync_commit w3). trace_extends.
      + destruct (mail_index_sync_commit w2). trace_extends. }
  split; [|exact Hlate].
  split.
  - intros H. destruct (directory_only box directory) eqn:Hd.
    + unfold directory_only in Hd. apply andb_prop in Hd.
      destruct Hd as [Hdir Hbit]. apply Z.eqb_eq in Hbit. tauto.
    + exfalso. destruct (Hlate eq_refl) as [rest Hrest].
      rewrite H in Hrest. cbn in Hrest.
      apply (f_equal (@List.length call)) in Hrest.
      rewrite length_app in Hrest. cbn in Hrest. lia.
  - intros [-> Hbit]. unfold dbox_mailbox_create. rewrite Hbit. reflexivity.
Qed.


Ltac decide_tests :=
  rewrite ?Z.gtb_ltb;
  repeat match goal with
  | |- context [?a <=? ?b] =>
      first [ rewrite (proj2 (Z.leb_le a b)) by lia
            | rewrite (proj2 (Z.leb_gt a b)) by lia ]
  | |- context [?a <? ?b] =>
      first [ rewrite (proj2 (Z.ltb_lt a b)) by lia
            | rewrite (proj2 (Z.ltb_ge a b)) by lia ]
  | |- context [?a =? ?b] =>
      first [ rewrite (proj2 (Z.eqb_eq a b)) by lia
            | rewrite (proj2 (Z.eqb_neq a b)) by lia ]
  end.

(** C8: when [mail_index_sync_begin] does not succeed, a return of 0
    stops the run in the assertion [ret != 0], before any further
    call; a negative return sets the storage's internal error, then
    resets the index's error, and create returns -1. *)
Theorem create_sync_begin_failure box update directory s o w1 r w2 :
  directory_only box directory = false ->
  index_storage_mailbox_open box false (w s) = (o, w1) -> 0 <= o ->
  mail_index_sync_begin w1 = (r, w2) -> r <= 0 ->
  let t := trace s ++ [Call_index_open box false; Call_sync_begin] in
  (r = 0 ->
   dbox_mailbox_create box update directory s
   = (Panic "ret != 0", mk_state t w2))
  /\ (r < 0 ->
      dbox_mailbox_create box update directory s
      = (Returned (-1),
         mk_state (t ++ [Call_set_internal_error; Call_reset_error])
                  (mail_index_reset_error
                     (mail_storage_set_internal_error w2)))
      /\ error_state (mail_storage_set_internal_error w2)
         = (Some (internal_error_text (ioloop_time w2)), false)).
Proof.
  intros Hd Ho Hpos Hr Hneg t. subst t.
  unfold dbox_mailbox_create. fold (directory_only box directory).
  rewrite Hd. unfold_monad. rewrite Ho. decide_tests. norm.
  rewrite Hr. decide_tests. norm. split.
  - intros ->. norm; rewrite <- ?app_assoc. reflexivity.
  - intros Hlt. split.
    + decide_tests. cbn [negb]. norm; rewrite <- ?app_assoc. reflexivity.
    + rewrite ErrorFacts.set_internal_error_eq. reflexivity.
Qed.

Lemma count_app (p : call -> bool) (a b : list call) :
  count p (a ++ b) = (count p a + count p b)%nat.
Proof. unfold count. rewrite filter_app, length_app. reflexivity. Qed.

(** A create that went past the directory-only test and returned a
    value that is not negative leaves the mailbox stamped. *)
Lemma create_success_stamps box update directory s v s1 :
  index_contract ->
  directory_only box directory = false ->
  dbox_mailbox_create box update directory s = (Returned v, s1) ->
  0 <= v ->
  stamped (w s1).
Proof.
  intros IC Hd. unfold dbox_mailbox_create.
  fold (directory_only box directory). rewrite Hd. unfold_monad.
  destruct (index_storage_mailbox_open box false (w s)) as [o w1]. norm.
  destruct (o <? 0); [intros H; injection H as <- _; lia|]. norm.
  destruct (mail_index_sync_begin w1) as [r w2]. norm.
  destruct (r <=? 0).
  { destruct (negb (r =? 0)); norm; intros H;
      [injection H as <- _; lia|discriminate H]. }
  norm. destruct (uid_validity (mail_index_get_header w2) =? 0) eqn:Eu; norm.
  - pose proof (init_stamps IC box update w2) as Hinit.
    destruct (mailbox_create_indexes box update w2) as [ci w3]. norm.
    destruct (ci <? 0) eqn:Eci; norm; [intros H; injection H as <- _; lia|].
    cbn [fst snd] in Hinit. apply Z.ltb_ge in Eci.
    destruct (mail_index_sync_commit w3) as [c w4]. cbn [fst snd] in Hinit.
    intros H Hv. injection H as <- <-. apply Hinit; assumption.
  - pose proof (commit_keeps IC w2) as Hkeep. apply Z.eqb_neq in Eu.
    destruct (mail_index_sync_commit w2) as [c w3]. cbn [snd] in Hkeep.
    intros H _. injection H as _ <-. apply Hkeep. exact Eu.
Qed.

(** On a stamped mailbox a create never initialises, whatever its
    arguments and however it ends, and leaves the mailbox stamped. *)
Lemma create_keeps_stamp box update directory s :
  index_contract ->
  stamped (w s) ->
  exists calls,
    trace (snd (dbox_mailbox_create box update directory s))
    = trace s ++ calls
    /\ count is_create_indexes calls = 0%nat
    /\ stamped (w (snd (dbox_mailbox_create box update directory s))).
Proof.
  intros IC Hst. unfold dbox_mailbox_create.
  destruct (directory && _).
  { exists []. rewrite app_nil_r. repeat split. exact Hst. }
  unfold_monad.
  pose proof (open_keeps IC box false (w s) Hst) as H1.
  destruct (index_storage_mailbox_open box false (w s)) as [o w1].
  cbn [snd] in H1. norm.
  destruct (o <? 0); norm.
  { eexists. repeat split. exact H1. }
  pose proof (begin_keeps IC w1 H1) as H2.
  destruct (mail_index_sync_begin w1) as [r w2]. cbn [snd] in H2. norm.
  destruct (r <=? 0); norm.
  { destruct (negb (r =? 0)); norm; rewrite <- ?app_assoc;
      eexists; (split; [reflexivity|]); (split; [reflexivity|]);
      [|exact H2].
    apply (reset_keeps IC).
    rewrite ErrorFacts.set_internal_error_eq. unfold stamped.
    rewrite (header_of_index IC). exact H2. }
  replace (uid_validity (mail_index_get_header w2) =? 0) with false
    by (symmetry; apply Z.eqb_neq; exact H2).
  norm. pose proof (commit_keeps IC w2 H2) as H3.
  destruct (mail_index_sync_commit w2) as [c w3]. cbn [snd] in H3. norm.
  rewrite <- ?app_assoc. eexists. repeat split. exact H3.
Qed.

(** After the stamp, no create of a sequence initialises. *)
Lemma create_all_keeps_stamp box (reqs : list (option U * bool)) :
  index_contract ->
  forall s, stamped (w s) ->
  exists calls,
    trace (snd (create_all box reqs s)) = trace s ++ calls
    /\ count is_create_indexes calls = 0%nat.
Proof.
  intros IC. induction reqs as [|[update directory] rest IH]; intros s Hst.
  - exists []. rewrite app_nil_r. split; reflexivity.
  - cbn [create_all]. unfold bind.
    destruct (create_keeps_stamp box update directory s IC Hst)
      as (c1 & Ht & Hc & Hst').
    destruct (dbox_mailbox_create box update directory s) as [[v|msg] s1];
      cbn [snd] in *.
    + destruct (IH s1 Hst') as (c2 & Ht2 & Hc2).
      exists (c1 ++ c2). rewrite Ht2, Ht, app_assoc.
      split; [reflexivity|]. rewrite count_app, Hc, Hc2. reflexivity.
    + exists c1. split; assumption.
Qed.


(** C3: on every path on which [mail_index_sync_begin] succeeded the
    run returns, and the calls it made contain one sync-begin and,
    as their last call, one release of the guard: the rollback when
    the initialisation was attempted and failed, the commit in every
    other case; no other release is made.  The release is carried
    out: the world the run leaves is the one
    [mail_index_sync_rollback] or [mail_index_sync_commit] leaves
    when applied to the world after the header check and the
    initialisation, and after a commit the value returned is the
    commit's. *)
Theorem create_releases_guard_once box update directory s o w1 r w2 :
  directory_only box directory = false ->
  index_storage_mailbox_open box false (w s) = (o, w1) -> 0 <= o ->
  mail_index_sync_begin w1 = (r, w2) -> 0 < r ->
  let uid := uid_validity (mail_index_get_header w2) in
  let init_failed :=
    (uid =? 0) && (fst (mailbox_create_indexes box update w2) <? 0) in
  let after_init :=
    if uid =? 0 then snd (mailbox_create_indexes box update w2) else w2 in
  exists v pre rel w',
    dbox_mailbox_create box update directory s
    = (Returned v, mk_state (trace s ++ pre ++ [rel]) w')
    /\ count is_sync_begin pre = 1%nat
    /\ count is_release pre = 0%nat
    /\ count is_release (pre ++ [rel]) = 1%nat
    /\ rel = (if init_failed then Call_sync_rollback else Call_sync_commit)
    /\ (init_failed = true -> v = -1)
    /\ (v, w') = (if init_failed
                  then (-1, mail_index_sync_rollback after_init)
                  else mail_index_sync_commit after_init)
    /\ pre = [Call_index_open box false; Call_sync_begin; Call_get_header]
             ++ (if uid =? 0 then [Call_create_indexes] else []).
Proof.
  intros Hd Ho Hpos Hr Hgt uid init_failed after_init.
  subst init_failed after_init.
  unfold dbox_mailbox_create. fold (directory_only box directory).
  rewrite Hd. unfold_monad. rewrite Ho. decide_tests. norm.
  rewrite Hr. decide_tests. norm. fold uid.
  destruct (uid =? 0); norm.
  - destruct (mailbox_create_indexes box update w2) as [ci w3]. norm.
    destruct (ci <? 0); norm.
    + exists (-1), [Call_index_open box false; Call_sync_begin;
                    Call_get_header; Call_create_indexes],
        Call_sync_rollback, (mail_index_sync_rollback w3).
      norm; rewrite <- ?app_assoc. repeat split.
    + destruct (mail_index_sync_commit w3) as [c w4].
      exists c, [Call_index_open box false; Call_sync_begin;
                 Call_get_header; Call_create_indexes],
        Call_sync_commit, w4.
      norm; rewrite <- ?app_assoc. repeat split. discriminate.
  - destruct (mail_index_sync_commit w2) as [c w3].
    exists c, [Call_index_open box false; Call_sync_begin; Call_get_header],
      Call_sync_commit, w3.
    norm; rewrite <- ?app_assoc. repeat split. discriminate.
Qed.

(** On every path at all, the run makes at most one sync-begin and
    never more releases than sync-begins. *)
Lemma create_release_bounded box update directory s :
  exists calls,
    trace (snd (dbox_mailbox_create box update directory s))
    = trace s ++ calls
    /\ (count is_release calls <= count is_sync_begin calls <= 1)%nat.
Proof.
  unfold dbox_mailbox_create.
  destruct (directory && _).
  { exists []. cbn. rewrite app_nil_r. split; [reflexivity|lia]. }
  unfold_monad.
  destruct (index_storage_mailbox_open box false (w s)) as [o w1]. norm.
  destruct (o <? 0); norm.
  { eexists. split; [reflexivity|]. cbn. lia. }
  destruct (mail_index_sync_begin w1) as [r w2]. norm.
  destruct (r <=? 0); norm.
  { destruct (negb (r =? 0)); norm; rewrite <- ?app_assoc;
      eexists; (split; [reflexivity|]); cbn; lia. }
  destruct (uid_validity (mail_index_get_header w2) =? 0); norm.
  - destruct (mailbox_create_indexes box update w2) as [ci w3]. norm.
    destruct (ci <? 0); norm.
    + norm; rewrite <- ?app_assoc. eexists. split; [reflexivity|]. cbn. lia.
    + destruct (mail_index_sync_commit w3). norm.
      norm; rewrite <- ?app_assoc. eexists. split; [reflexivity|]. cbn. lia.
  - destruct (mail_index_sync_commit w2). norm.
    norm; rewrite <- ?app_assoc. eexists. split; [reflexivity|]. cbn. lia.
Qed.

Lemma vprintf_stat_failed (e path : string) :
  vprintf e "stat(%s) failed: %m" [ArgStr path]
  = ("stat(" ++ path ++ ") failed: " ++ e)%string.
Proof.
  cbn. rewrite ErrorFacts.append_empty_r. reflexivity.
Qed.

(** C4: when the stat of the mailbox path fails, [dbox_mailbox_open]
    returns -1 after setting an error chosen by errno alone.  ENOENT:
    the not-found message is stored as a plain error (flag clear) and
    nothing is logged.  EACCES: the permission-denied detail is
    logged and the stored message is the internal-error text.  Any
    other errno: the logged detail is the stat failure with the text
    of that errno, and the stored message is the internal-error
    text. *)
Theorem open_stat_failure box s w1 :
  stat (box_path box) (w s) = (None, w1) ->
  let path := box_path box in
  let t := trace s ++ [Call_stat path] in
  let res := dbox_mailbox_open box s in
  (errno w1 = ENOENT ->
   let msg := T_MAIL_ERR_MAILBOX_NOT_FOUND (box_name box) in
   res = (Returned (-1),
          mk_state (t ++ [Call_set_error msg])
                   (with_storage w1 (mk_storage (Some msg) false))))
  /\ (errno w1 = EACCES ->
      forall m w2, mail_error_eacces_msg "stat" path w1 = (m, w2) ->
      res = (Returned (-1),
             mk_state (t ++ [Call_eacces_msg "stat" path;
                             Call_set_critical "%s" [ArgStr m]])
               (with_storage (with_log w2 (log w2 ++ [m]))
                  (mk_storage
                     (Some (internal_error_text (ioloop_time w2))) false))))
  /\ (errno w1 <> ENOENT -> errno w1 <> EACCES ->
      let detail :=
        ("stat(" ++ path ++ ") failed: " ++ strerror (errno w1))%string in
      res = (Returned (-1),
             mk_state (t ++ [Call_set_critical "stat(%s) failed: %m"
                                               [ArgStr path]])
               (with_storage (with_log w1 (log w1 ++ [detail]))
                  (mk_storage
                     (Some (internal_error_text (ioloop_time w1))) false)))).
Proof.
  intros Hs path t res. subst t res path.
  unfold dbox_mailbox_open, dbox_cleanup_if_exists. unfold_monad.
  rewrite Hs. norm. split; [|split].
  - intros He. rewrite He. cbn [Z.eqb ENOENT Pos.eqb]. norm.
    unfold mail_storage_set_error.
    rewrite ErrorFacts.strdup_percent_s. rewrite <- ?app_assoc.
    reflexivity.
  - intros He m w2 Hm. rewrite He. cbn [Z.eqb ENOENT EACCES Pos.eqb]. norm.
    rewrite Hm. norm.
    unfold mail_storage_set_critical, i_error.
    rewrite !ErrorFacts.strdup_percent_s.
    rewrite ErrorFacts.set_internal_error_eq. rewrite <- ?app_assoc.
    reflexivity.
  - intros H1 H2. decide_tests. norm.
    unfold mail_storage_set_critical, i_error.
    rewrite ErrorFacts.strdup_percent_s.
    rewrite ErrorFacts.set_internal_error_eq.
    unfold strdup_vprintf. rewrite vprintf_stat_failed.
    rewrite <- ?app_assoc. reflexivity.
Qed.

(** C7: the reaper runs only after a successful stat.  For a grace
    period that is not negative and a clock from which the scan
    interval can be taken without leaving [time_t]: it makes no scan
    when [st_atime > st_ctime + DBOX_TMP_DELETE_SECS]; a scan, when
    there is one, is made with the list's temp prefix and the age
    limit [ioloop_time - DBOX_TMP_DELETE_SECS], and only when
    [st_atime] is not above [st_ctime + DBOX_TMP_DELETE_SECS] and is
    below [ioloop_time - DBOX_TMP_SCAN_SECS]; so with
    [st_atime = st_ctime] and [ioloop_time - st_atime] below the scan
    interval there is no scan.  When the first sum also stays in
    [time_t] those two conditions do bring the scan.  Whatever the
    scan returns, the path is reported as existing and open goes on
    to the index open. *)
Theorem cleanup_gate path s r w1 :
  stat path (w s) = (r, w1) ->
  0 <= DBOX_TMP_DELETE_SECS ->
  in_time_t (ioloop_time w1 - DBOX_TMP_SCAN_SECS) ->
  let t := trace s ++ [Call_stat path] in
  let res := dbox_cleanup_if_exists path s in
  let now := ioloop_time w1 in
  (r = None -> res = (Returned false, mk_state t w1))
  /\ (forall st, r = Some st -> in_time_t (st_ctime st) ->
      let scanned prefix w2 u w3 :=
        mailbox_list_get_global_temp_prefix w1 = (prefix, w2)
        /\ unlink_old_files path prefix
             (to_time_t (ioloop_time w2 - DBOX_TMP_DELETE_SECS)) w2
           = (u, w3)
        /\ res = (Returned true,
                  mk_state
                    (t ++ [Call_get_global_temp_prefix;
                           Call_unlink_old_files path prefix
                             (to_time_t
                                (ioloop_time w2 - DBOX_TMP_DELETE_SECS))])
                    w3) in
      (st_atime st > st_ctime st + DBOX_TMP_DELETE_SECS ->
       res = (Returned true, mk_state t w1))
      /\ (st_atime st >= now - DBOX_TMP_SCAN_SECS ->
          res = (Returned true, mk_state t w1))
      /\ (st_atime st = st_ctime st ->
          now - st_atime st < DBOX_TMP_SCAN_SECS ->
          res = (Returned true, mk_state t w1))
      /\ (res = (Returned true, mk_state t w1)
          \/ st_atime st <= st_ctime st + DBOX_TMP_DELETE_SECS
             /\ st_atime st < now - DBOX_TMP_SCAN_SECS
             /\ exists prefix w2 u w3, scanned prefix w2 u w3)
      /\ (st_atime st <= st_ctime st + DBOX_TMP_DELETE_SECS ->
          in_time_t (st_ctime st + DBOX_TMP_DELETE_SECS) ->
          st_atime st < now - DBOX_TMP_SCAN_SECS ->
          exists prefix w2 u w3, scanned prefix w2 u w3)
      /\ exists s',
          res = (Returned true, s')
          /\ forall box, box_path box = path ->
               dbox_mailbox_open box s
               = invoke (Call_index_open box false)
                        (index_storage_mailbox_open box false) s').
Proof.
  intros Hs HD HS t res now. subst t res now.
  assert (Hopen : forall s',
            dbox_cleanup_if_exists path s = (Returned true, s') ->
            forall box, box_path box = path ->
              dbox_mailbox_open box s
              = invoke (Call_index_open box false)
                       (index_storage_mailbox_open box false) s').
  { intros s' Hc box Hp. unfold dbox_mailbox_open. rewrite Hp.
    unfold bind at 1. rewrite Hc. reflexivity. }
  split.
  { intros ->. unfold dbox_cleanup_if_exists. unfold_monad.
    rewrite Hs. reflexivity. }
  intros st -> Hct. cbv zeta.
  assert (Hsum : to_time_t (st_ctime st + DBOX_TMP_DELETE_SECS)
                 <= st_ctime st + DBOX_TMP_DELETE_SECS).
  { apply to_time_t_le. unfold in_time_t in Hct. lia. }
  assert (Hrun : dbox_cleanup_if_exists path s
            = if st_atime st
                 >? to_time_t (st_ctime st + DBOX_TMP_DELETE_SECS)
              then (Returned true, mk_state (trace s ++ [Call_stat path]) w1)
              else if st_atime st <? ioloop_time w1 - DBOX_TMP_SCAN_SECS
              then
                let (prefix, w2) := mailbox_list_get_global_temp_prefix w1 in
                let min_time :=
                  to_time_t (ioloop_time w2 - DBOX_TMP_DELETE_SECS) in
                let (u, w3) := unlink_old_files path prefix min_time w2 in
                (Returned true,
                 mk_state (trace s ++ [Call_stat path;
                             Call_get_global_temp_prefix;
                             Call_unlink_old_files path prefix min_time])
                          w3)
              else (Returned true,
                    mk_state (trace s ++ [Call_stat path]) w1)).
  { unfold dbox_cleanup_if_exists. unfold_monad. rewrite Hs. norm.
    rewrite (to_time_t_small _ HS).
    destruct (st_atime st >? _); [reflexivity|].
    destruct (st_atime st <? _); [|reflexivity]. norm.
    destruct (mailbox_list_get_global_temp_prefix w1) as [prefix w2]. norm.
    destruct (unlink_old_files path prefix _ w2) as [u w3]. norm.
    rewrite <- ?app_assoc. reflexivity. }
  assert (Hscan : (st_atime st
                     >? to_time_t (st_ctime st + DBOX_TMP_DELETE_SECS))
                  = false ->
                  (st_atime st <? ioloop_time w1 - DBOX_TMP_SCAN_SECS) = true ->
                  exists prefix w2 u w3,
                    mailbox_list_get_global_temp_prefix w1 = (prefix, w2)
                    /\ unlink_old_files path prefix
                         (to_time_t (ioloop_time w2 - DBOX_TMP_DELETE_SECS))
                         w2 = (u, w3)
                    /\ dbox_cleanup_if_exists path s
                       = (Returned true,
                          mk_state
                            ((trace s ++ [Call_stat path])
                             ++ [Call_get_global_temp_prefix;
                                 Call_unlink_old_files path prefix
                                   (to_time_t (ioloop_time w2
                                               - DBOX_TMP_DELETE_SECS))])
                            w3)).
  { intros E1 E2. rewrite Hrun, E1, E2.
    destruct (mailbox_list_get_global_temp_prefix w1) as [prefix w2].
    cbv zeta.
    destruct (unlink_old_files path prefix _ w2) as [u w3] eqn:Eu.
    exists prefix, w2, u, w3. rewrite <- app_assoc.
    repeat split. exact Eu. }
  split; [|split; [|split; [|split; [|split]]]].
  - intros H. rewrite Hrun.
    replace (st_atime st >? _) with true; [reflexivity|].
    symmetry. rewrite Z.gtb_ltb. apply Z.ltb_lt. lia.
  - intros H. rewrite Hrun. destruct (st_atime st >? _); [reflexivity|].
    replace (st_atime st <? _) with false; [reflexivity|].
    symmetry. apply Z.ltb_ge. lia.
  - intros H1 H2. rewrite Hrun. destruct (st_atime st >? _); [reflexivity|].
    replace (st_atime st <? _) with false; [reflexivity|].
    symmetry. apply Z.ltb_ge. lia.
  - destruct (Z_lt_le_dec
                (to_time_t (st_ctime st + DBOX_TMP_DELETE_SECS))
                (st_atime st)) as [G1|G1].
    { left. rewrite Hrun.
      replace (st_atime st >? _) with true; [reflexivity|].
      symmetry. rewrite Z.gtb_ltb. apply Z.ltb_lt. exact G1. }
    assert (E1 : (st_atime st
                    >? to_time_t (st_ctime st + DBOX_TMP_DELETE_SECS))
                 = false)
      by (rewrite Z.gtb_ltb; apply Z.ltb_ge; exact G1).
    destruct (Z_lt_le_dec (st_atime st)
                (ioloop_time w1 - DBOX_TMP_SCAN_SECS)) as [G2|G2].
    2:{ left. rewrite Hrun, E1.
        replace (st_atime st <? _) with false; [reflexivity|].
        symmetry. apply Z.ltb_ge. exact G2. }
    right. split; [lia|]. split; [exact G2|].
    apply Hscan; [exact E1|apply Z.ltb_lt; exact G2].
  - intros H1 H2 H3. apply Hscan.
    + rewrite (to_time_t_small _ H2), Z.gtb_ltb. apply Z.ltb_ge. lia.
    + apply Z.ltb_lt. exact H3.
  - assert (Hex : exists s',
                dbox_cleanup_if_exists path s = (Returned true, s')).
    { rewrite Hrun. destruct (st_atime st >? _); [eexists; reflexivity|].
      destruct (st_atime st <? _); [|eexists; reflexivity].
      destruct (mailbox_list_get_global_temp_prefix w1) as [prefix w2].
      cbv zeta. destruct (unlink_old_files path prefix _ w2) as [u w3].
      eexists; reflexivity. }
    destruct Hex as [s' Hs']. exists s'. split; [exact Hs'|].
    apply Hopen. exact Hs'.
Qed.

End Facts.
End DboxFacts.

(** ** Runs of the dbox lifecycle on the scripted collaborators *)

Module DboxRuns.
Import MailStorage Dbox Trace Template Contract Stamping Demo DboxFacts.
Local Open Scope list_scope.

Lemma create_sync_begin_failure_witness :
  let s0 := mk_state [] (world_of broken) in
  directory_only inbox false = false
  /\ index_storage_mailbox_open inbox false (w s0) = (0, world_of broken)
  /\ mail_index_sync_begin (world_of broken) = (-1, world_of broken)
  /\ dbox_mailbox_create inbox None false s0
     = (Returned (-1),
        mk_state [Call_index_open inbox false; Call_sync_begin;
                  Call_set_internal_error; Call_reset_error]
                 (with_storage (world_of broken)
                               (mk_storage (Some stamped_text) false))).
Proof.
  cbv zeta. split; [reflexivity|]. split; [reflexivity|].
  split; [reflexivity|].
  refine (proj1 (proj2 (create_sync_begin_failure
            inbox None false (mk_state [] (world_of broken))
            0 (world_of broken) (-1) (world_of broken)
            eq_refl eq_refl _ eq_refl _) _)); lia.
Defined.

(** The stamping backend on the scripted index meets the contract. *)
Lemma stamping_contract : index_contract (C := stamping).
Proof.
  constructor.
  - intros wd st. reflexivity.
  - intros box create wd H. exact H.
  - intros wd H. exact H.
  - intros wd H. exact H.
  - intros wd H. exact H.
  - intros box update wd H1 _. unfold stamped. cbn in *.
    destruct (s_create (ext wd) <? 0) eqn:E; cbn in *.
    + apply Z.ltb_lt in E. lia.
    + lia.
Qed.


Lemma create_releases_guard_once_witness :
  exists v pre w',
    dbox_mailbox_create inbox None false (mk_state [] (world_of fresh))
    = (Returned v, mk_state (pre ++ [Call_sync_commit]) w')
    /\ count is_sync_begin pre = 1%nat
    /\ count is_release (pre ++ [Call_sync_commit]) = 1%nat.
Proof.
  assert (H0 : 0 <= 0) by lia. assert (H1 : 0 < 1) by lia.
  assert (Ho : index_storage_mailbox_open
                 inbox false (w (mk_state [] (world_of fresh)))
               = (0, world_of fresh)) by reflexivity.
  assert (Hb : mail_index_sync_begin (world_of fresh) = (1, world_of fresh))
    by reflexivity.
  destruct (create_releases_guard_once
              inbox None false (mk_state [] (world_of fresh))
              0 (world_of fresh) 1 (world_of fresh)
              eq_refl Ho H0 Hb H1)
    as (v & pre & rel & w' & Hrun & Hcount & _ & Hrel & Hwhich & _).
  cbn in Hwhich. subst rel.
  exists v, pre, w'. split; [exact Hrun|]. split; assumption.
Defined.

Lemma open_stat_failure_witness :
  let s0 := mk_state [] (world_of forbidden) in
  let failed := with_errno (world_of forbidden) EACCES in
  let detail := "stat(/m/INBOX) failed: Permission denied"%string in
  stat "/m/INBOX" (w s0) = (None, failed)
  /\ errno failed = EACCES
  /\ dbox_mailbox_open inbox s0
     = (Returned (-1),
        mk_state [Call_stat "/m/INBOX"; Call_eacces_msg "stat" "/m/INBOX";
                  Call_set_critical "%s" [ArgStr detail]]
                 (mk_world EACCES 45296 [detail]
                           (mk_storage (Some stamped_text) false)
                           forbidden)).
Proof.
  cbv zeta. split; [reflexivity|]. split; [reflexivity|].
  exact (proj1 (proj2 (open_stat_failure
           inbox (mk_state [] (world_of forbidden))
           (with_errno (world_of forbidden) EACCES) eq_refl))
           eq_refl _ _ eq_refl).
Defined.

Lemma cleanup_gate_witness :
  let s0 := mk_state [] (world_of fresh) in
  stat "/m/INBOX" (w s0) = (Some (mk_stat 45000 45000), world_of fresh)
  /\ 0 <= DBOX_TMP_DELETE_SECS
  /\ in_time_t (45296 - DBOX_TMP_SCAN_SECS)
  /\ in_time_t 45000
  /\ 45296 - 45000 < DBOX_TMP_SCAN_SECS
  /\ dbox_cleanup_if_exists "/m/INBOX" s0
     = (Returned true, mk_state [Call_stat "/m/INBOX"] (world_of fresh)).
Proof.
  cbv zeta.
  assert (HD : 0 <= DBOX_TMP_DELETE_SECS) by (vm_compute; discriminate).
  assert (HS : in_time_t (ioloop_time (world_of fresh) - DBOX_TMP_SCAN_SECS))
    by (vm_compute; split; discriminate).
  assert (Hc : in_time_t (st_ctime (mk_stat 45000 45000)))
    by (vm_compute; split; discriminate).
  split; [reflexivity|]. split; [exact HD|]. split; [exact HS|].
  split; [exact Hc|]. split; [reflexivity|].
  refine (proj1 (proj2 (proj2 (proj2 (cleanup_gate
            "/m/INBOX" (mk_state [] (world_of fresh))
            (Some (mk_stat 45000 45000)) (world_of fresh) eq_refl HD HS)
            (mk_stat 45000 45000) eq_refl Hc))) eq_refl _).
  reflexivity.
Defined.

Lemma create_directory_only_witness :
  dbox_mailbox_create inbox None true (mk_state [] (world_of fresh))
  = (Returned 0, mk_state [] (world_of fresh)).
Proof.
  apply (proj1 (create_directory_only
                  inbox None true (mk_state [] (world_of fresh)))).
  split; reflexivity.
Defined.

(** Two creates of the same fresh mailbox, one after the other: the
    first finds uid-validity 0 and initialises, the second finds the
    stamp and only commits. *)
Example create_twice :
  run (dbox_mailbox_create inbox None false ;;;
       dbox_mailbox_create inbox None false) (world_of fresh)
  = (Returned 0,
     [Call_index_open inbox false; Call_sync_begin; Call_get_header;
      Call_create_indexes; Call_sync_commit;
      Call_index_open inbox false; Call_sync_begin; Call_get_header;
      Call_sync_commit],
     world_of (stamp_uid_validity fresh 45296)).
Proof. reflexivity. Qed.

(** A list without support for bare directories: a directory-only
    create does the index work. *)
Example create_directory_no_noselect :
  run (dbox_mailbox_create (mk_mailbox "a" "/m/a" 4) None true)
      (world_of fresh)
  = (Returned 0,
     [Call_index_open (mk_mailbox "a" "/m/a" 4) false; Call_sync_begin;
      Call_get_header; Call_create_indexes; Call_sync_commit],
     world_of (stamp_uid_validity fresh 45296)).
Proof. reflexivity. Qed.

(** The three classes of a failed stat, and a mailbox due for a scan. *)
Example open_enoent :
  run (dbox_mailbox_open inbox)
      (world_of (mk_script None ENOENT 0 0 1 0 0 0))
  = (Returned (-1),
     [Call_stat "/m/INBOX"; Call_set_error "Mailbox doesn't exist: INBOX"],
     mk_world ENOENT 45296 []
              (mk_storage (Some "Mailbox doesn't exist: INBOX"%string) false)
              (mk_script None ENOENT 0 0 1 0 0 0)).
Proof. reflexivity. Qed.

Example open_other_errno :
  run (dbox_mailbox_open inbox) (world_of (mk_script None 5 0 0 1 0 0 0))
  = (Returned (-1),
     [Call_stat "/m/INBOX";
      Call_set_critical "stat(%s) failed: %m" [ArgStr "/m/INBOX"]],
     mk_world 5 45296 ["stat(/m/INBOX) failed: Input/output error"%string]
              (mk_storage (Some stamped_text) false)
              (mk_script None 5 0 0 1 0 0 0)).
Proof. reflexivity. Qed.

Example open_scans_and_ignores_failure :
  let old := mk_script (Some (mk_stat 10000 10000)) 0 (-1) 0 1 7 0 0 in
  run (dbox_mailbox_open inbox) (world_of old)
  = (Returned 0,
     [Call_stat "/m/INBOX"; Call_get_global_temp_prefix;
      Call_unlink_old_files "/m/INBOX" "temp." (45296 - 129600);
      Call_index_open inbox false],
     world_of old).
Proof. reflexivity. Qed.

End DboxRuns.

(** ** The registry: lookup, registration and the probing loops *)

Module RegistryFacts.
Import MailStorage Registry Selection.
Local Open Scope list_scope.

Lemma strcasecmp_folded (a : string) :
  forall b b', folded b = folded b' -> strcasecmp a b = strcasecmp a b'.
Proof.
  induction a as [|x r IH]; intros [|c b] [|c' b'] H; simpl in *;
    try reflexivity; try discriminate.
  - injection H as Hc _. rewrite Hc. reflexivity.
  - injection H as Hc Hr. rewrite Hc, (IH b b' Hr). reflexivity.
Qed.

(** X1: [mail_storage_find] gives the first class, in registration
    order, whose name compares equal to the query; it gives nothing
    only when no registered name compares equal. *)
Theorem find_first_match (classes : list mail_storage_class) (nm : string) :
  match mail_storage_find classes nm with
  | Some c =>
      exists pre post,
        classes = pre ++ c :: post
        /\ strcasecmp (name c) nm = 0
        /\ Forall (fun d => strcasecmp (name d) nm <> 0) pre
  | None => Forall (fun d => strcasecmp (name d) nm <> 0) classes
  end.
Proof.
  induction classes as [|c rest IH]; simpl; [constructor|].
  destruct (strcasecmp (name c) nm =? 0) eqn:E.
  - apply Z.eqb_eq in E. exists [], rest. repeat split; [exact E|constructor].
  - apply Z.eqb_neq in E.
    destruct (mail_storage_find rest nm) as [d|].
    + destruct IH as (pre & post & -> & Hd & Hpre).
      exists (c :: pre), post. repeat split; [exact Hd|].
      constructor; assumption.
    + constructor; assumption.
Qed.

(** X2: the lookup does not see the case of the query: two queries
    with the same bytes after lower-casing find the same class. *)
Theorem find_ignores_case (classes : list mail_storage_class)
        (nm nm' : string) :
  folded nm = folded nm' ->
  mail_storage_find classes nm = mail_storage_find classes nm'.
Proof.
  intros H. induction classes as [|c rest IH]; simpl; [reflexivity|].
  rewrite (strcasecmp_folded (name c) nm nm' H), IH. reflexivity.
Qed.

Lemma find_ignores_case_witness :
  folded "MAILDIR" = folded "maildir"
  /\ mail_storage_find [Demo.greedy; Demo.shy] "MAILDIR" = Some Demo.shy.
Proof.
  split; [reflexivity|].
  rewrite (find_ignores_case [Demo.greedy; Demo.shy] "MAILDIR" "maildir"
                             eq_refl).
  reflexivity.
Defined.

Lemma find_app (l1 l2 : list mail_storage_class) (nm : string) :
  mail_storage_find (l1 ++ l2) nm
  = match mail_storage_find l1 nm with
    | Some c => Some c
    | None => mail_storage_find l2 nm
    end.
Proof.
  induction l1 as [|c rest IH]; simpl; [reflexivity|].
  destruct (strcasecmp (name c) nm =? 0); [reflexivity|exact IH].
Qed.

(** X3: a class registered later never shadows an earlier one: after
    a registration the lookup gives what it gave before whenever that
    was a class, and the new class only when nothing matched before
    and its own name matches. *)
Theorem register_keeps_earlier (heap : class_ptr -> mail_storage_class)
        (storages : list class_ptr) (p : class_ptr) (nm : string) :
  mail_storage_find (classes heap (mail_storage_class_register p storages)) nm
  = match mail_storage_find (classes heap storages) nm with
    | Some c => Some c
    | None => if strcasecmp (name (heap p)) nm =? 0
              then Some (heap p) else None
    end.
Proof.
  unfold classes, mail_storage_class_register.
  rewrite map_app, find_app. reflexivity.
Qed.

Lemma unregister_absent (p : class_ptr) (l : list class_ptr) :
  ~ In p l -> mail_storage_class_unregister p l = l.
Proof.
  induction l as [|q rest IH]; simpl; intros H; [reflexivity|].
  destruct (Nat.eqb_spec q p) as [->|_]; [contradiction H; left; reflexivity|].
  rewrite IH; [reflexivity|]. intros Hin. apply H. right. exact Hin.
Qed.

Lemma unregister_first (p : class_ptr) (pre post : list class_ptr) :
  ~ In p pre ->
  mail_storage_class_unregister p (pre ++ p :: post) = pre ++ post.
Proof.
  induction pre as [|q rest IH]; simpl; intros H.
  - rewrite Nat.eqb_refl. reflexivity.
  - destruct (Nat.eqb_spec q p) as [->|_];
      [contradiction H; left; reflexivity|].
    rewrite IH; [reflexivity|]. intros Hin. apply H. right. exact Hin.
Qed.

(** X4: [mail_storage_class_unregister] takes out the first slot that
    holds the pointer and nothing else: the slots before and after it
    stay, in order, a second registration of the same class stays
    too, and an array without the pointer is left as it is. *)
Theorem unregister_removes_first (p : class_ptr) (l : list class_ptr) :
  (~ In p l -> mail_storage_class_unregister p l = l)
  /\ (forall pre post,
         l = pre ++ p :: post -> ~ In p pre ->
         mail_storage_class_unregister p l = pre ++ post)
  /\ (forall q,
         count_occ Nat.eq_dec (mail_storage_class_unregister p l) q
         = if Nat.eqb q p then Nat.pred (count_occ Nat.eq_dec l p)
           else count_occ Nat.eq_dec l q).
Proof.
  split; [apply unregister_absent|]. split.
  - intros pre post -> H. apply unregister_first. exact H.
  - intros q. induction l as [|x rest IH]; simpl.
    + destruct (Nat.eqb q p); reflexivity.
    + destruct (Nat.eqb_spec x p) as [Exp|Hxp].
      * subst x. destruct (Nat.eq_dec p p) as [_|F];
          [|contradiction F; reflexivity].
        destruct (Nat.eqb_spec q p) as [Eqp|Hqp].
        -- subst q. reflexivity.
        -- destruct (Nat.eq_dec p q) as [E|_]; [|reflexivity].
           contradiction Hqp. symmetry. exact E.
      * simpl. rewrite IH.
        destruct (Nat.eq_dec x p) as [E|_]; [contradiction Hxp|].
        destruct (Nat.eqb_spec q p) as [Eqp|Hqp].
        -- subst q. destruct (Nat.eq_dec x p) as [E|_];
             [contradiction Hxp|reflexivity].
        -- reflexivity.
Qed.

Lemma unregister_removes_first_witness :
  mail_storage_class_unregister 1%nat [2; 1; 3; 1]%nat = [2; 3; 1]%nat.
Proof.
  apply (proj1 (proj2 (unregister_removes_first 1%nat [2; 1; 3; 1]%nat))
               [2]%nat [3; 1]%nat eq_refl).
  intros [H|[]]. discriminate H.
Defined.

(** X5: registering a class and unregistering it again gives back the
    array when the class was not in it; when it was, the earlier slot
    is the one removed and the class ends up last. *)
Theorem unregister_after_register (p : class_ptr) (l : list class_ptr) :
  mail_storage_class_unregister p (mail_storage_class_register p l)
  = if existsb (Nat.eqb p) l
    then mail_storage_class_register p (mail_storage_class_unregister p l)
    else l.
Proof.
  unfold mail_storage_class_register.
  induction l as [|q rest IH]; simpl.
  - rewrite Nat.eqb_refl. reflexivity.
  - rewrite (Nat.eqb_sym p q). destruct (Nat.eqb q p); simpl; [reflexivity|].
    rewrite IH. destruct (existsb (Nat.eqb p) rest); reflexivity.
Qed.

End RegistryFacts.

(** ** Dispatch through the registry *)

Module DispatchFacts.
Import MailStorage Registry Selection.
Local Open Scope list_scope.

Section Dispatch.
Variable storages : list mail_storage_class.
Variables (user : string) (flags : mail_storage_flags)
          (lock_method : mail_storage_lock_method).

Lemma find_none (classes : list mail_storage_class) (nm : string) :
  Forall (fun c => strcasecmp (name c) nm <> 0) classes ->
  mail_storage_find classes nm = None.
Proof.
  induction 1 as [|c rest Hc _ IH]; simpl; [reflexivity|].
  apply Z.eqb_neq in Hc. rewrite Hc. exact IH.
Qed.

(** X6: when no registered class bears the name, [mail_storage_create]
    gives NULL and calls into no backend at all. *)
Theorem create_unknown_name (nm : string) (data : option string) :
  Forall (fun c => strcasecmp (name c) nm <> 0) storages ->
  mail_storage_create storages user flags lock_method nm data = (None, []).
Proof.
  intros H. unfold mail_storage_create. rewrite (find_none _ _ H).
  reflexivity.
Qed.

(** X7: [mail_storage_create_default] calls create with NULL data on
    the classes in registration order and stops at the first that
    gives a storage, which it returns; it gives NULL only after every
    class has been tried and has refused. *)
Theorem create_default_first_success :
  let refuses d := v_create d None user flags lock_method = None in
  match mail_storage_create_default storages user flags lock_method with
  | (Some st, t) =>
      exists pre c post,
        storages = pre ++ c :: post
        /\ Forall refuses pre
        /\ v_create c None user flags lock_method = Some st
        /\ t = List.map (fun d => VCreate (name d) None) (pre ++ [c])
  | (None, t) =>
      Forall refuses storages
      /\ t = List.map (fun d => VCreate (name d) None) storages
  end.
Proof.
  cbv zeta. unfold mail_storage_create_default.
  induction storages as [|c rest IH]; simpl.
  - split; [constructor|reflexivity].
  - destruct (v_create c None user flags lock_method) as [st|] eqn:E.
    + exists [], c, rest. repeat split; [constructor|exact E].
    + destruct (create_default_loop user flags lock_method rest)
        as [[st|] t].
      * destruct IH as (pre & d & post & -> & Hpre & Hd & ->).
        exists (c :: pre), d, post. repeat split; [|exact Hd].
        constructor; assumption.
      * destruct IH as [Hall ->]. split; [|reflexivity].
        constructor; assumption.
Qed.

(** X8: [mail_storage_autodetect] probes the classes in registration
    order and gives the first whose predicate accepts the data; the
    classes after it are not probed, and no create is ever called. *)
Theorem autodetect_first_match (data : option string) :
  let rejects d := v_autodetect d data flags = false in
  match mail_storage_autodetect storages flags data with
  | (Some c, t) =>
      exists pre post,
        storages = pre ++ c :: post
        /\ Forall rejects pre
        /\ v_autodetect c data flags = true
        /\ t = List.map (fun d => VAutodetect (name d) data) (pre ++ [c])
  | (None, t) =>
      Forall rejects storages
      /\ t = List.map (fun d => VAutodetect (name d) data) storages
  end.
Proof.
  cbv zeta. unfold mail_storage_autodetect.
  induction storages as [|c rest IH]; simpl.
  - split; [constructor|reflexivity].
  - destruct (v_autodetect c data flags) eqn:E.
    + exists [], rest. repeat split; [constructor|exact E].
    + destruct (autodetect_loop flags rest data) as [[d|] t].
      * destruct IH as (pre & post & -> & Hpre & Hd & ->).
        exists (c :: pre), post. repeat split; [|exact Hd].
        constructor; assumption.
      * destruct IH as [Hall ->]. split; [|reflexivity].
        constructor; assumption.
Qed.

Lemma autodetect_none (classes : list mail_storage_class)
      (data : option string) :
  Forall (fun c => v_autodetect c data flags = false) classes ->
  autodetect_loop flags classes data
  = (None, List.map (fun c => VAutodetect (name c) data) classes).
Proof.
  induction 1 as [|c rest Hc _ IH]; simpl; [reflexivity|].
  rewrite Hc, IH. reflexivity.
Qed.

(** X9: data that is not empty, does not have the [name:] form and is
    recognised by no class gives NULL after every class was probed,
    and no create is called. *)
Theorem with_data_unrecognised (d : string) :
  d <> EmptyString ->
  Ascii.eqb (deref (skip_alnum d)) ":" = false ->
  Forall (fun c => v_autodetect c (Some d) flags = false) storages ->
  mail_storage_create_with_data storages user flags lock_method (Some d)
  = (None, List.map (fun c => VAutodetect (name c) (Some d)) storages).
Proof.
  intros Hd Hcolon Hall. unfold mail_storage_create_with_data.
  destruct d as [|c r]; [contradiction Hd; reflexivity|].
  rewrite Hcolon. unfold mail_storage_autodetect.
  rewrite (autodetect_none _ _ Hall). reflexivity.
Qed.
End Dispatch.

(** X10: the pointer scan cuts the data in two without loss: the
    bytes before [p] are the longest alphanumeric prefix, they and
    the bytes from [p] on give back the data, and [p] stands on a
    byte that is not alphanumeric (the terminator included). *)
Theorem scan_splits (d : string) :
  let p := skip_alnum d in
  d = (t_strdup_until d p ++ p)%string
  /\ all_alnum (t_strdup_until d p) = true
  /\ i_isalnum (deref p) = false.
Proof.
  cbv zeta. induction d as [|c r IH]; [repeat split|].
  simpl skip_alnum. destruct (i_isalnum c) eqn:Ec.
  - rewrite (SelectionFacts.t_strdup_until_cons
               c r _ (SelectionFacts.skip_alnum_length r)).
    destruct IH as (Hsplit & Hal & Hp). simpl. rewrite Ec.
    split; [f_equal; exact Hsplit|]. split; assumption.
  - rewrite SelectionFacts.t_strdup_until_self.
    repeat split. exact Ec.
Qed.

Lemma create_unknown_name_witness :
  mail_storage_create [Demo.greedy; Demo.shy] "u" 0 0 "dbox" (Some "/x")
  = (None, []).
Proof.
  apply (create_unknown_name [Demo.greedy; Demo.shy] "u" 0 0 "dbox").
  repeat constructor; discriminate.
Defined.

Lemma with_data_unrecognised_witness :
  mail_storage_create_with_data [Demo.shy; Places.useless] "u" 0 0
                                (Some "/var/mail")
  = (None, [VAutodetect "maildir" (Some "/var/mail");
            VAutodetect "raw" (Some "/var/mail")]).
Proof.
  apply (with_data_unrecognised [Demo.shy; Places.useless] "u" 0 0
                                "/var/mail").
  - discriminate.
  - reflexivity.
  - repeat constructor.
Defined.

End DispatchFacts.

(** ** More on the error state *)

Module ErrorBounds.
Import MailStorage Template.

Section Bounds.
Context {L : LibcOps} {X : Type}.
Implicit Types (w : world X) (va : va_list).

Lemma prefix_append (a b : string) : String.prefix a (a ++ b) = true.
Proof.
  induction a as [|c r IH]; simpl; [destruct b; reflexivity|].
  destruct (ascii_dec c c) as [_|F]; [exact IH|contradiction F; reflexivity].
Qed.

(** X11: whatever the clock, the time zone and the locale give, the
    message [mail_storage_set_internal_error] stores begins with the
    fixed text and is at most 255 bytes long. *)
Theorem internal_error_bounded w :
  exists msg,
    error (storage (mail_storage_set_internal_error w)) = Some msg
    /\ String.prefix CRITICAL_MSG msg = true
    /\ (String.length msg <= 255)%nat.
Proof.
  rewrite ErrorFacts.set_internal_error_eq. cbn.
  eexists. split; [reflexivity|].
  unfold internal_error_text.
  destruct (String.length _ + 1 <=? 256)%nat eqn:E.
  - split; [apply prefix_append|]. apply Nat.leb_le in E. lia.
  - split; [reflexivity|]. apply Nat.leb_le. reflexivity.
Qed.

End Bounds.
End ErrorBounds.

(** ** The list settings *)

Module ListSettingsFacts.
Import ListSettings.

(** X13: [dbox_storage_get_list_settings] leaves every field set,
    keeps each field the caller had set, changes nothing when all
    were set, and doing it twice is doing it once. *)
Theorem list_settings_defaults {N : DboxNames} (set : mailbox_list_settings) :
  complete (dbox_storage_get_list_settings set)
  /\ keeps set (dbox_storage_get_list_settings set)
  /\ (complete set -> dbox_storage_get_list_settings set = set)
  /\ dbox_storage_get_list_settings (dbox_storage_get_list_settings set)
     = dbox_storage_get_list_settings set.
Proof.
  destruct set as [[a|] [b|] [c|] [d|]];
    (split; [repeat split; discriminate|]);
    (split; [repeat split; cbn; intros x H; (exact H || discriminate H)|]);
    (split; [|reflexivity]);
    intros (Ha & Hb & Hc & Hd); cbn in *;
    try reflexivity; try (contradiction Ha; reflexivity);
    try (contradiction Hb; reflexivity); try (contradiction Hc; reflexivity);
    try (contradiction Hd; reflexivity).
Qed.

Import Places.

Lemma list_settings_defaults_witness :
  dbox_storage_get_list_settings
    (mk_settings (Some "maildir++") None (Some "") None)
  = mk_settings (Some "maildir++") (Some "subscriptions") (Some "")
                (Some "mailboxes")
  /\ dbox_storage_get_list_settings
       (mk_settings (Some "a") (Some "b") (Some "c") (Some "d"))
     = mk_settings (Some "a") (Some "b") (Some "c") (Some "d").
Proof.
  split; [reflexivity|].
  apply (proj1 (proj2 (proj2 (list_settings_defaults
           (mk_settings (Some "a") (Some "b") (Some "c") (Some "d")))))).
  repeat split; discriminate.
Defined.
End ListSettingsFacts.

(** ** More on the dbox lifecycle *)

Module LifecycleFacts.
Import MailStorage Dbox Trace Calls Template.
Local Open Scope list_scope.

Ltac expose :=
  unfold set_error_string, set_critical, perform, bind, invoke, read, ret,
    i_assert.

Ltac tidy := cbv beta iota; cbn [w trace snd fst].

Ltac settle :=
  rewrite ?Z.gtb_ltb;
  repeat match goal with
  | |- context [?a <=? ?b] =>
      first [ rewrite (proj2 (Z.leb_le a b)) by lia
            | rewrite (proj2 (Z.leb_gt a b)) by lia ]
  | |- context [?a <? ?b] =>
      first [ rewrite (proj2 (Z.ltb_lt a b)) by lia
            | rewrite (proj2 (Z.ltb_ge a b)) by lia ]
  | |- context [?a =? ?b] =>
      first [ rewrite (proj2 (Z.eqb_eq a b)) by lia
            | rewrite (proj2 (Z.eqb_neq a b)) by lia ]
  end.

(** Closes a goal [exists calls, t = trace s ++ calls /\ ...] whose
    remaining parts hold by computation. *)
Ltac by_trace :=
  tidy; rewrite <- ?app_assoc; cbn [app];
  eexists; split; [reflexivity|]; repeat split.

Section Facts.
Context {L : LibcOps} {T : TimeT} {K : DboxConsts} {X U : Type}
        {C : Collaborators X U}.
Implicit Types (s : state X) (box : mailbox) (update : option U).

(** X14: when the stat fails, [dbox_mailbox_open] returns -1 with an
    error message in the storage and the syntax flag clear; it has
    made one error-setting call, no scan and no index open. *)
Theorem open_failure_sets_error box s w1 :
  stat (box_path box) (w s) = (None, w1) ->
  exists calls w',
    dbox_mailbox_open box s
    = (Returned (-1), mk_state (trace s ++ calls) w')
    /\ error (storage w') <> None
    /\ syntax_error (storage w') = false
    /\ count is_error_setter calls = 1%nat
    /\ count is_scan calls = 0%nat
    /\ count is_index_open calls = 0%nat.
Proof.
  intros Hs. unfold dbox_mailbox_open, dbox_cleanup_if_exists. expose.
  rewrite Hs. tidy.
  destruct (errno w1 =? ENOENT); [|destruct (errno w1 =? EACCES)]; tidy.
  - rewrite <- ?app_assoc. do 2 eexists. split; [reflexivity|].
    repeat split. discriminate.
  - destruct (mail_error_eacces_msg "stat" (box_path box) w1) as [m w2].
    tidy. rewrite <- ?app_assoc. do 2 eexists. split; [reflexivity|].
    unfold mail_storage_set_critical.
    rewrite ErrorFacts.set_internal_error_eq.
    repeat split. discriminate.
  - rewrite <- ?app_assoc. do 2 eexists. split; [reflexivity|].
    unfold mail_storage_set_critical.
    rewrite ErrorFacts.set_internal_error_eq.
    repeat split. discriminate.
Qed.



(** X17: [dbox_mailbox_create] dies in its assertion exactly when it
    went past the directory-only test, the index open did not fail
    and [mail_index_sync_begin] returned 0; on every other path it
    returns. *)
Theorem create_panics_iff box update directory s :
  let o := index_storage_mailbox_open box false (w s) in
  let r := mail_index_sync_begin (snd o) in
  is_panic (fst (dbox_mailbox_create box update directory s))
  = negb (directory_only box directory) && (0 <=? fst o) && (fst r =? 0).
Proof.
  cbv zeta. unfold dbox_mailbox_create. fold (directory_only box directory).
  destruct (directory_only box directory); [reflexivity|]. expose.
  destruct (index_storage_mailbox_open box false (w s)) as [o w1]. tidy.
  rewrite Z.leb_antisym. destruct (o <? 0); [reflexivity|]. tidy.
  destruct (mail_index_sync_begin w1) as [r w2]. tidy. cbn [negb andb].
  destruct (r <=? 0) eqn:Er.
  - destruct (r =? 0); reflexivity.
  - replace (r =? 0) with false
      by (symmetry; apply Z.eqb_neq; apply Z.leb_gt in Er; lia).
    tidy. destruct (uid_validity (mail_index_get_header w2) =? 0); tidy.
    + destruct (mailbox_create_indexes box update w2) as [ci w3]. tidy.
      destruct (ci <? 0); [reflexivity|]. tidy.
      destruct (mail_index_sync_commit w3). reflexivity.
    + destruct (mail_index_sync_commit w2). reflexivity.
Qed.

(** X18: when the index open fails, [dbox_mailbox_create] returns -1
    at once: the open is its only call, no guard is asked for and
    create itself writes no error. *)
Theorem create_index_open_failure box update directory s o w1 :
  directory_only box directory = false ->
  index_storage_mailbox_open box false (w s) = (o, w1) -> o < 0 ->
  dbox_mailbox_create box update directory s
  = (Returned (-1), mk_state (trace s ++ [Call_index_open box false]) w1).
Proof.
  intros Hd Ho Hneg. unfold dbox_mailbox_create.
  fold (directory_only box directory). rewrite Hd. expose.
  rewrite Ho. settle. reflexivity.
Qed.

(** X19: on every path of [dbox_mailbox_create] the guard is
    released exactly when it was acquired (the run passed the
    directory-only test, the index open did not fail and the
    sync-begin returned a positive value).  When it was, the world
    left is the one the rollback or the commit leaves; when it was
    not, the world left is the one of the early return, of the failed
    open, of the assertion or of the error path, none of which has a
    commit or a rollback applied; the calls recorded agree. *)
Theorem create_guard_balance box update directory s :
  let o := index_storage_mailbox_open box false (w s) in
  let r := mail_index_sync_begin (snd o) in
  let w2 := snd r in
  let acquired :=
    negb (directory_only box directory) && (0 <=? fst o) && (0 <? fst r) in
  let uid := uid_validity (mail_index_get_header w2) in
  let init := mailbox_create_indexes box update w2 in
  let released :=
    if uid =? 0 then
      if fst init <? 0
      then (Returned (-1), mail_index_sync_rollback (snd init))
      else (Returned (fst (mail_index_sync_commit (snd init))),
            snd (mail_index_sync_commit (snd init)))
    else (Returned (fst (mail_index_sync_commit w2)),
          snd (mail_index_sync_commit w2)) in
  let not_acquired :=
    if directory_only box directory then (Returned 0, w s)
    else if fst o <? 0 then (Returned (-1), snd o)
    else if fst r =? 0 then (Panic "ret != 0", w2)
    else (Returned (-1),
          mail_index_reset_error (mail_storage_set_internal_error w2)) in
  let res := dbox_mailbox_create box update directory s in
  (fst res, w (snd res)) = (if acquired then released else not_acquired)
  /\ exists calls,
      trace (snd res) = trace s ++ calls
      /\ count is_release calls = (if acquired then 1%nat else 0%nat)
      /\ (count is_sync_begin calls <= 1)%nat.
Proof.
  cbv zeta. unfold dbox_mailbox_create. fold (directory_only box directory).
  destruct (directory_only box directory).
  { split; [reflexivity|]. exists []. rewrite app_nil_r.
    repeat split. cbn. lia. }
  expose.
  destruct (index_storage_mailbox_open box false (w s)) as [o w1]. tidy.
  rewrite Z.leb_antisym. destruct (o <? 0); tidy.
  { split; [reflexivity|]. by_trace. cbn. lia. }
  destruct (mail_index_sync_begin w1) as [r w2]. tidy. cbn [negb andb].
  rewrite (Z.ltb_antisym r 0). destruct (r <=? 0) eqn:Er; tidy; cbn [negb].
  { destruct (r =? 0) eqn:E0; cbn [negb]; tidy.
    - split; [reflexivity|]. by_trace. cbn. lia.
    - split; [reflexivity|]. by_trace. cbn. lia. }
  destruct (uid_validity (mail_index_get_header w2) =? 0); tidy.
  - destruct (mailbox_create_indexes box update w2) as [ci w3]. tidy.
    destruct (ci <? 0); tidy.
    + split; [reflexivity|]. by_trace. cbn. lia.
    + destruct (mail_index_sync_commit w3).
      split; [reflexivity|]. by_trace. cbn. lia.
  - destruct (mail_index_sync_commit w2).
    split; [reflexivity|]. by_trace. cbn. lia.
Qed.


End Facts.
End LifecycleFacts.

(** ** Further runs on the scripted collaborators *)

Module LifecycleRuns.
Import MailStorage Dbox Trace Calls Template Demo Places LifecycleFacts.
Local Open Scope list_scope.

Lemma open_failure_sets_error_witness :
  exists calls w',
    dbox_mailbox_open inbox (mk_state [] (world_of missing))
    = (Returned (-1), mk_state calls w')
    /\ error (storage w') <> None
    /\ count is_error_setter calls = 1%nat.
Proof.
  assert (Hs : stat (box_path inbox) (w (mk_state [] (world_of missing)))
               = (None, with_errno (world_of missing) ENOENT))
    by reflexivity.
  destruct (open_failure_sets_error
              inbox (mk_state [] (world_of missing))
              (with_errno (world_of missing) ENOENT) Hs)
    as (calls & w' & Hrun & Herr & _ & Hset & _).
  exists calls, w'. split; [exact Hrun|]. split; assumption.
Defined.



Lemma create_index_open_failure_witness :
  dbox_mailbox_create inbox None false (mk_state [] (world_of unopenable))
  = (Returned (-1),
     mk_state [Call_index_open inbox false] (world_of unopenable)).
Proof.
  apply (create_index_open_failure
           inbox None false (mk_state [] (world_of unopenable))
           (-1) (world_of unopenable)); [reflexivity|reflexivity|lia].
Defined.

End LifecycleRuns.

Module RegistryRuns.
Import MailStorage Registry Places.

(** Two registrations into the fresh array, then a lookup and the
    removal of the first class. *)
Example register_then_find :
  let storages :=
    mail_storage_class_register 2%nat
      (mail_storage_class_register 1%nat mail_storage_init) in
  mail_storage_find (classes heap storages) "MBOX" = Some Demo.greedy
  /\ mail_storage_find
       (classes heap (mail_storage_class_unregister 1%nat storages)) "MBOX"
     = None.
Proof. split; reflexivity. Qed.

End RegistryRuns.
